(** * World Bank data wrapper: the reshape / normalise routines

    A shallow embedding of [orangecontrib/datasets/api_wrapper.py]:
    [IndicatorDataset._get_iso_date], [as_np_array], the four table builders
    of [IndicatorDataset] and [ClimateDataset], and [as_orange_table].

    Python values are modelled as they occur in the raw lists handed over by
    the wrapped client: [None], strings, integers and dates.  Strings are
    sequences of code points below 256.  Exceptions are explicit: every
    fallible operation returns a [result]. *)

From Stdlib Require Import ZArith Ascii String List Lia Bool DecimalString
  OrderedTypeEx.
From stdpp Require Import gmap strings list sorting.

Local Open Scope Z_scope.

(** ** Exceptions and the error monad *)

Inductive exn : Set :=
  | ValueError
  | OverflowError
  | IndexError
  | TypeError
  | AttributeError
  | KeyError.

Inductive result (A : Type) : Type :=
  | Ok (a : A)
  | Raise (e : exn).

Arguments Ok {A} a.
Arguments Raise {A} e.

#[global] Instance result_ret : MRet result := fun A a => Ok a.

#[global] Instance result_bind : MBind result := fun A B f m =>
  match m with
  | Ok a => f a
  | Raise e => Raise e
  end.

#[global] Instance result_fmap : FMap result := fun A B f m =>
  match m with
  | Ok a => Ok (f a)
  | Raise e => Raise e
  end.

(** [try: m except ValueError: h] *)
Definition except_ValueError {A} (m : result A) (h : result A) : result A :=
  match m with
  | Raise ValueError => h
  | _ => m
  end.

(** [mapM] over a list, left to right, stopping at the first exception. *)
Fixpoint mapM {A B} (f : A -> result B) (l : list A) : result (list B) :=
  match l with
  | [] => Ok []
  | x :: l' => y ← f x; ys ← mapM f l'; Ok (y :: ys)
  end.

(** ** Strings *)

Module PyStr.

(** ["Q" in s] for a one-character needle. *)
Fixpoint contains (c : ascii) (s : string) : bool :=
  match s with
  | EmptyString => false
  | String a s' => Ascii.eqb a c || contains c s'
  end.

(** [s.split(sep)] for a one-character separator: never the empty list. *)
Fixpoint split (sep : ascii) (s : string) : list string :=
  match s with
  | EmptyString => [EmptyString]
  | String a s' =>
      if Ascii.eqb a sep then EmptyString :: split sep s'
      else match split sep s' with
           | w :: ws => String a w :: ws
           | [] => [String a EmptyString]
           end
  end.

(** [a, b = parts]: unpacking anything but two items is a [ValueError]. *)
Definition unpack2 (parts : list string) : result (string * string) :=
  match parts with
  | [a; b] => Ok (a, b)
  | _ => Raise ValueError
  end.

(** White space as [int()] skips it: the ASCII set of [Py_ISSPACE] and the
    two Latin-1 spaces NEL and NBSP. *)
Definition is_space (c : ascii) : bool :=
  let n := N_of_ascii c in
  ((9 <=? n) && (n <=? 13) || (n =? 32) || (n =? 133) || (n =? 160))%N.

Definition is_digit (c : ascii) : bool :=
  let n := N_of_ascii c in ((48 <=? n) && (n <=? 57))%N.

Definition digit_value (c : ascii) : Z := Z.of_N (N_of_ascii c) - 48.

Fixpoint skip_spaces (s : string) : string :=
  match s with
  | String c s' => if is_space c then skip_spaces s' else s
  | EmptyString => EmptyString
  end.

Definition scan_sign (s : string) : bool * string :=
  match s with
  | String c s' =>
      if Ascii.eqb c "-" then (true, s')
      else if Ascii.eqb c "+" then (false, s')
      else (false, s)
  | EmptyString => (false, s)
  end.

(** The run of digits and single underscores; [prev_us] records that the
    previous character was an underscore.  Returns the value, the number of
    digits and the unread rest. *)
Fixpoint scan_digits (s : string) (prev_us : bool) (acc : Z) (digits : nat)
  : option (Z * nat * string) :=
  match s with
  | String c s' =>
      if is_digit c then
        scan_digits s' false (10 * acc + digit_value c) (S digits)
      else if Ascii.eqb c "_" then
        if prev_us then None else scan_digits s' true acc digits
      else if prev_us then None else Some (acc, digits, s)
  | EmptyString => if prev_us then None else Some (acc, digits, s)
  end.

(** [sys.get_int_max_str_digits()], the interpreter's default. *)
Definition int_max_str_digits : nat := 4300.

Definition starts_with_underscore (s : string) : bool :=
  match s with
  | String c _ => Ascii.eqb c "_"
  | EmptyString => false
  end.

(** [int(s)] in base 10. *)
Definition py_int (s : string) : result Z :=
  let '(neg, body) := scan_sign (skip_spaces s) in
  if starts_with_underscore body then Raise ValueError
  else match scan_digits body false 0 0 with
       | Some (v, digits, rest) =>
           if (digits =? 0)%nat then Raise ValueError
           else if negb (String.eqb (skip_spaces rest) EmptyString)
           then Raise ValueError
           else if (int_max_str_digits <? digits)%nat then Raise ValueError
           else Ok (if neg then - v else v)
       | None => Raise ValueError
       end.

Definition digit_char (d : Z) : ascii := ascii_of_N (48 + Z.to_N d).

(** ["%02d"] and ["%04d"] on the ranges a date holds. *)
Definition fmt02 (n : Z) : string :=
  String (digit_char (n / 10 mod 10)) (String (digit_char (n mod 10)) EmptyString).

Definition fmt04 (n : Z) : string :=
  String (digit_char (n / 1000 mod 10))
    (String (digit_char (n / 100 mod 10)) (fmt02 n)).

(** [str(n)] of an integer: its decimal digits, after a minus sign when it
    is negative. *)
Definition str_of_int (z : Z) : string := NilZero.string_of_int (Z.to_int z).

(** [s[:n]] *)
Fixpoint truncate (n : nat) (s : string) : string :=
  match n, s with
  | S n', String c s' => String c (truncate n' s')
  | _, _ => EmptyString
  end.

(** What an item of fixed-width text reads as: the NUL characters at its
    end are padding and not part of the text. *)
Fixpoint rstrip_nul (s : string) : string :=
  match s with
  | EmptyString => EmptyString
  | String c s' =>
      match rstrip_nul s' with
      | EmptyString =>
          if Ascii.eqb c "000" then EmptyString else String c EmptyString
      | t => String c t
      end
  end.

End PyStr.

(** ** Dates *)

Record date : Set := mkdate { year : Z; month : Z; day : Z }.

Module PyDate.

Definition MINYEAR : Z := 1.
Definition MAXYEAR : Z := 9999.

Definition is_leap (y : Z) : bool :=
  (y mod 4 =? 0) && (negb (y mod 100 =? 0) || (y mod 400 =? 0)).

Definition days_in_month (y m : Z) : Z :=
  if m =? 2 then (if is_leap y then 29 else 28)
  else if (m =? 4) || (m =? 6) || (m =? 9) || (m =? 11) then 30
  else 31.

(** The constructor's arguments are read as C [int]s. *)
Definition fits_c_int (z : Z) : bool := (- 2 ^ 31 <=? z) && (z <? 2 ^ 31).

(** [datetime.date(y, m, d)]: [OverflowError] when an argument does not fit
    a C [int], [ValueError] when it is outside the calendar. *)
Definition datetime_date (y m d : Z) : result date :=
  if negb (fits_c_int y && fits_c_int m && fits_c_int d) then Raise OverflowError
  else if (MINYEAR <=? y) && (y <=? MAXYEAR)
          && (1 <=? m) && (m <=? 12)
          && (1 <=? d) && (d <=? days_in_month y m)
  then Ok (mkdate y m d)
  else Raise ValueError.

(** [d.isoformat()]: ["%04d-%02d-%02d"]. *)
Definition isoformat (d : date) : string :=
  PyStr.fmt04 (year d) +:+ "-" +:+ PyStr.fmt02 (month d) +:+ "-" +:+ PyStr.fmt02 (day d).

End PyDate.

(** ** Cells: the Python values of a raw table *)

Inductive Cell : Set :=
  | CNone
  | CStr (s : string)
  | CInt (z : Z)
  | CDate (d : date).

(** Truth value, as [bool(x)], [any] and [not x] test it. *)
Definition truthy (c : Cell) : bool :=
  match c with
  | CNone => false
  | CStr s => negb (String.eqb s EmptyString)
  | CInt z => negb (z =? 0)
  | CDate _ => true
  end.

(** [str(x)] *)
Definition py_str (c : Cell) : string :=
  match c with
  | CNone => "None"
  | CStr s => s
  | CInt z => PyStr.str_of_int z
  | CDate d => PyDate.isoformat d
  end.

(** ** The runtime the wrapper runs in

    What the code takes from its libraries without the claims depending on
    the details: floating-point numbers and the conversions to them, the local
    time zone behind [time.mktime], the iteration order of a [set], and the
    alpha-3 country map of [countries.get_alpha3_map()]. *)

Class Env : Type := {
  pyfloat : Type;
  (** [numpy.nan] *)
  nan : pyfloat;
  (** [float(s)] on a string; [None] stands for its [ValueError]. *)
  float_of_str : string -> option pyfloat;
  (** [float(n)] on an integer; [None] stands for its [OverflowError]. *)
  float_of_int : Z -> option pyfloat;
  (** [time.mktime(d.timetuple())] *)
  mktime : date -> result pyfloat;
  (** The order in which [set(l)] is iterated: each distinct element once. *)
  set_iter : list Cell -> list Cell;
  set_iter_NoDup : forall l, NoDup (set_iter l);
  set_iter_elem : forall l x, x ∈ set_iter l <-> x ∈ l;
  get_alpha3_map : gmap string string
}.

(** ** Arrays

    A two-dimensional [numpy] array with its dtype.  [numpy.array] keeps the
    cells of a table as the Python objects they are ([dtype=object]) as soon
    as one of them is [None], a date or an integer beyond 64 bits.  A table
    of strings and integers becomes an array of fixed-width text ([<U]),
    every integer standing as its decimal text; a table of integers alone
    becomes an array of [int64], of [uint64] or, when it mixes the two
    ranges, of [float64].  The shape is stored, since an array may have
    columns and no rows. *)

Inductive np_dtype : Set :=
  | DObject
  | DStr (itemsize : nat)
  | DInt64
  | DUInt64
  | DFloat64.

Record ndarray (A : Type) : Type := mk_array {
  dtype : np_dtype;
  shape0 : nat;
  shape1 : nat;
  rows : list (list A)
}.

Arguments mk_array {A} dtype shape0 shape1 rows.
Arguments dtype {A} _.
Arguments shape0 {A} _.
Arguments shape1 {A} _.
Arguments rows {A} _.

(** An array of Python objects. *)
Abbreviation mk_ndarray s0 s1 rs := (mk_array DObject s0 s1 rs).

(** What [numpy.array] makes of a list of lists: two axes when the list is not
    empty and its rows have one length, a single axis otherwise. *)
Inductive array : Type :=
  | Array1 (items : nat)
  | Array2 (a : ndarray Cell).

Module Np.

Definition rectangular {A} (raw : list (list A)) : bool :=
  match raw with
  | [] => false
  | r :: rs => forallb (fun r' => length r' =? length r)%nat rs
  end.

Definition fits_int64 (z : Z) : bool := (- 2 ^ 63 <=? z) && (z <? 2 ^ 63).

Definition fits_uint64 (z : Z) : bool := (0 <=? z) && (z <? 2 ^ 64).

(** The dtype [numpy.array] finds for one cell: a string is text of its
    length (of one character at least), an integer is a C [long] if it fits
    one (taken to have 64 bits), an unsigned one if it fits that, and an
    object otherwise. *)
Definition dtype_of_cell (c : Cell) : np_dtype :=
  match c with
  | CNone | CDate _ => DObject
  | CStr s => DStr (Nat.max 1 (String.length s))
  | CInt z =>
      if fits_int64 z then DInt64
      else if fits_uint64 z then DUInt64
      else DObject
  end.

(** The width of the text a number of the given dtype may need. *)
Definition text_width (dt : np_dtype) : nat :=
  match dt with
  | DInt64 => 21
  | DUInt64 => 20
  | DFloat64 => 32
  | DStr w => w
  | DObject => 0
  end.

(** [numpy.promote_types] *)
Definition promote_types (a b : np_dtype) : np_dtype :=
  match a, b with
  | DObject, _ | _, DObject => DObject
  | DStr w, _ => DStr (Nat.max w (text_width b))
  | _, DStr w => DStr (Nat.max (text_width a) w)
  | DInt64, DInt64 => DInt64
  | DUInt64, DUInt64 => DUInt64
  | _, _ => DFloat64
  end.

(** The dtype [numpy.array] finds for a table: the dtypes of its cells,
    promoted one after the other; [float64] when there is no cell. *)
Definition discover (raw : list (list Cell)) : np_dtype :=
  match concat raw with
  | [] => DFloat64
  | c :: cells =>
      foldl (fun dt c' => promote_types dt (dtype_of_cell c'))
        (dtype_of_cell c) cells
  end.

(** [float(n)] of an integer of 64 bits, as the integer it is equal to: the
    nearest number with 53 significant bits, the even one of two that are
    equally near. *)
Definition round_float64 (z : Z) : Z :=
  let a := Z.abs z in
  if a <? 2 ^ 53 then z
  else
    let e := Z.log2 a - 52 in
    let q := a / 2 ^ e in
    let r := a mod 2 ^ e in
    let half := 2 ^ (e - 1) in
    let q' := if (half <? r) || ((r =? half) && Z.odd q) then q + 1 else q in
    Z.sgn z * (q' * 2 ^ e).

(** What an array of dtype [dt] holds once [x] is stored in it, by
    [numpy.array] or by [a[i, j] = x]: an array of objects holds [x] itself;
    a text array holds [str(x)], cut to the item width; an array of numbers
    holds the number, rounded if it is one of [float64] (the code stores
    nothing but numbers in one). *)
Definition store (dt : np_dtype) (x : Cell) : Cell :=
  match dt with
  | DObject => x
  | DStr w => CStr (PyStr.rstrip_nul (PyStr.truncate w (py_str x)))
  | DInt64 | DUInt64 => x
  | DFloat64 =>
      match x with
      | CInt z => CInt (round_float64 z)
      | _ => x
      end
  end.

(** The entries of [numpy.array(raw)]. *)
Definition stored (raw : list (list Cell)) : list (list Cell) :=
  fmap (M:=list) (fmap (M:=list) (store (discover raw))) raw.

(** [numpy.array(raw)] *)
Definition np_array (raw : list (list Cell)) : array :=
  if rectangular raw
  then Array2 (mk_array (discover raw) (length raw) (length (hd [] raw))
                 (stored raw))
  else Array1 (length raw).

(** Indexing with two subscripts needs two axes. *)
Definition two_axes (a : array) : result (ndarray Cell) :=
  match a with
  | Array2 d => Ok d
  | Array1 _ => Raise IndexError
  end.

Section Ops.
Context {A : Type}.

(** [a[k:, :]] *)
Definition rows_from (k : nat) (a : ndarray A) : ndarray A :=
  mk_array (dtype a) (shape0 a - k) (shape1 a) (drop k (rows a)).

(** [a[:, :k]] *)
Definition cols_upto (k : nat) (a : ndarray A) : ndarray A :=
  mk_array (dtype a) (shape0 a) (Nat.min k (shape1 a)) (fmap (take k) (rows a)).

(** [a[:, k:]] *)
Definition cols_from (k : nat) (a : ndarray A) : ndarray A :=
  mk_array (dtype a) (shape0 a) (shape1 a - k) (fmap (drop k) (rows a)).

Fixpoint transpose_rows (n : nat) (rs : list (list A)) : list (list A) :=
  match rs with
  | [] => replicate n []
  | r :: rs' => zip_with cons r (transpose_rows n rs')
  end.

(** [a.T] *)
Definition T (a : ndarray A) : ndarray A :=
  mk_array (dtype a) (shape1 a) (shape0 a) (transpose_rows (shape1 a) (rows a)).

(** [enumerate(l)] *)
Definition enumerate {B} (l : list B) : list (nat * B) :=
  imap (fun i x => (i, x)) l.

(** [a[:, idx]] with a list of column indices: a new array. *)
Definition take_columns (idx : list nat) (a : ndarray A) : result (ndarray A) :=
  if forallb (fun j => j <? shape1 a)%nat idx
  then Ok (mk_array (dtype a) (shape0 a) (length idx)
             (fmap (fun r => omap (fun j => r !! j) idx) (rows a)))
  else Raise IndexError.

(** [a[:, j]] *)
Definition column (j : nat) (a : ndarray A) : result (list A) :=
  if (j <? shape1 a)%nat
  then Ok (omap (fun r => r !! j) (rows a))
  else Raise IndexError.

(** [a[i, :]] *)
Definition row (i : nat) (a : ndarray A) : result (list A) :=
  match rows a !! i with
  | Some r => Ok r
  | None => Raise IndexError
  end.

(** [row[j] = v] on a Python list, or on a row of an array that holds [v]
    as it is. *)
Definition setitem (j : nat) (v : A) (r : list A) : result (list A) :=
  if (j <? length r)%nat then Ok (<[j:=v]> r) else Raise IndexError.

(** [row[j]] *)
Definition getitem (j : nat) (r : list A) : result A :=
  match r !! j with
  | Some v => Ok v
  | None => Raise IndexError
  end.

End Ops.

(** The builtin [any(col)]. *)
Definition py_any (col : list Cell) : bool := existsb truthy col.

(** The method [a.any()], used as a truth value. *)
Definition any (a : ndarray Cell) : bool := existsb py_any (rows a).

End Np.

(** ** Builtins: comparison, [sorted], dictionaries *)

#[global] Instance date_eq_dec : EqDecision date.
Proof. solve_decision. Defined.

#[global] Instance Cell_eq_dec : EqDecision Cell.
Proof. solve_decision. Defined.

Module Py.

Definition date_ltb (a b : date) : bool :=
  (year a <? year b)
  || ((year a =? year b)
      && ((month a <? month b) || ((month a =? month b) && (day a <? day b)))).

(** [a < b] is defined between two strings, two integers or two dates;
    any other pair of cells raises [TypeError]. *)
Definition comparable (a b : Cell) : bool :=
  match a, b with
  | CStr _, CStr _ | CInt _, CInt _ | CDate _, CDate _ => true
  | _, _ => false
  end.

Definition cell_ltb (a b : Cell) : bool :=
  match a, b with
  | CStr x, CStr y => String.ltb x y
  | CInt x, CInt y => x <? y
  | CDate x, CDate y => date_ltb x y
  | _, _ => false
  end.

Section Sorted.
Variable key : Cell -> Cell.

(** [x] goes in front of the first element that is not smaller: equal
    keys keep the order they came in. *)
Fixpoint insert (x : Cell) (l : list Cell) : list Cell :=
  match l with
  | [] => [x]
  | y :: l' =>
      if cell_ltb (key y) (key x) then y :: insert x l' else x :: y :: l'
  end.

Definition isort (l : list Cell) : list Cell := foldr insert [] l.

(** [sorted(l, key=key)]: a stable sort; with two or more elements the
    keys are compared, and keys of different kinds raise [TypeError]. *)
Definition sorted (l : list Cell) : result (list Cell) :=
  match fmap key l with
  | [] | [_] => Ok l
  | k :: ks =>
      if forallb (comparable k) (k :: ks) then Ok (isort l)
      else Raise TypeError
  end.
End Sorted.

(** A [dict] from cells to indices, in insertion order. *)
Definition dict : Type := list (Cell * nat).

Fixpoint dict_set (k : Cell) (v : nat) (d : dict) : dict :=
  match d with
  | [] => [(k, v)]
  | (k', v') :: d' =>
      if decide (k = k') then (k', v) :: d' else (k', v') :: dict_set k v d'
  end.

(** [{r: i for i, r in enumerate(l)}] *)
Definition dict_of_enumerate (l : list Cell) : dict :=
  foldl (fun d '(i, r) => dict_set r i d) [] (Np.enumerate l).

(** [d[k]] *)
Fixpoint dict_getitem (k : Cell) (d : dict) : result nat :=
  match d with
  | [] => Raise KeyError
  | (k', v) :: d' => if decide (k = k') then Ok v else dict_getitem k d'
  end.

(** [d.keys()] *)
Definition dict_keys (d : dict) : list Cell := d.*1.

(** Keyword arguments, as a call site collects them. *)
Inductive kwarg : Set :=
  | KBool (b : bool)
  | KStrs (l : list string).

Definition kwargs : Set := list (string * kwarg).

(** [f(name=v, **kw)]: a keyword given twice is a [TypeError]. *)
Definition add_kwarg (name : string) (v : kwarg) (kw : kwargs) : result kwargs :=
  if existsb (fun '(n, _) => String.eqb n name) kw then Raise TypeError
  else Ok ((name, v) :: kw).

End Py.

(** ** The host's table container *)

Module Orange.

Inductive variable : Set :=
  | StringVariable (name : Cell)
  | DiscreteVariable (name : Cell) (values : list Cell)
  | ContinuousVariable (name : Cell)
  | TimeVariable (name : Cell).

(** [Domain(attributes, metas=metas)] *)
Record Domain : Set := mk_Domain {
  attributes : list variable;
  domain_metas : list variable
}.

Section Table.
Context `{Env}.

(** The entries of the arrays handed to the table: cells, or floats
    produced on the way. *)
Inductive Obj : Type :=
  | OCell (c : Cell)
  | OFloat (f : pyfloat).

(** [Table(domain, X, metas=metas)] *)
Record Table : Type := mk_Table {
  domain : Domain;
  X : list (list Obj);
  metas : list (list Obj)
}.
End Table.

End Orange.

(** ** [IndicatorDataset] *)

Module IndicatorDataset.
Import Py Orange.

(** The wrapped client's dataset: [as_list(time_series, add_metadata,
    **kwargs)] hands over the raw list of lists. *)
Record t : Type := { as_list : bool -> bool -> kwargs -> list (list Cell) }.

Section GetIsoDate.

(** [datetime.date.today()]: the clock is the caller's. *)
Variable today : date.

Definition _get_iso_date (date_str : string) : result Cell :=
  except_ValueError
    (if PyStr.contains "Q" date_str then
       '(year, quarter) ← PyStr.unpack2 (PyStr.split "Q" date_str);
       y ← PyStr.py_int year;
       q ← PyStr.py_int quarter;
       d ← PyDate.datetime_date y (q * 3 - 2) 1;
       Ok (CDate d)
     else if PyStr.contains "M" date_str then
       '(year, month) ← PyStr.unpack2 (PyStr.split "M" date_str);
       y ← PyStr.py_int year;
       m ← PyStr.py_int month;
       d ← PyDate.datetime_date y m 1;
       Ok (CDate d)
     else
       y ← PyStr.py_int date_str;
       d ← PyDate.datetime_date y 1 1;
       Ok (CStr (PyDate.isoformat d)))
    (Ok (CStr (PyDate.isoformat today))).

End GetIsoDate.

(** The column indices that hold a true value below the header row:
    [[ind for ind, col in enumerate(data[1:, :].T) if any(col)]]. *)
Definition column_filter (data : ndarray Cell) : list nat :=
  (List.filter (fun '(ind, col) => Np.py_any col)
     (Np.enumerate (rows (Np.T (Np.rows_from 1 data))))).*1.

(** The body shared by both classes' [as_np_array], from the raw list on. *)
Definition filter_columns (raw : list (list Cell)) : result (ndarray Cell) :=
  let data := Np.np_array raw in
  body ← Np.two_axes data;
  let filter_ := column_filter body in
  Np.take_columns filter_ body.

Definition nonesorter (a : Cell) : Cell :=
  if negb (truthy a) then CStr "" else a.

Section Methods.
Context `{Env}.
Variable self : t.

Definition as_np_array (time_series add_metadata : bool) (kw : kwargs)
  : result (ndarray Cell) :=
  filter_columns (as_list self time_series add_metadata kw).

(** [[time.mktime(date_.timetuple()) if date_ else None]] *)
Definition timestamp_row (date_ : Cell) : result (list Obj) :=
  if truthy date_ then
    match date_ with
    | CDate d => t ← mktime d; Ok [OFloat t]
    | _ => Raise AttributeError
    end
  else Ok [OCell CNone].

Definition _time_series_table : result (option Table) :=
  data ← as_np_array true false [];
  if negb (Np.any data) then Ok None
  else
    dates ← Np.column 0 (Np.rows_from 1 data);
    meta_columns ← mapM timestamp_row dates;
    let data_columns := Np.cols_from 1 (Np.rows_from 1 data) in
    let meta_domains := [TimeVariable (CStr "Date")] in
    header ← Np.row 0 data;
    let colum_domains := fmap (M:=list) ContinuousVariable (drop 1 header) in
    let domain := mk_Domain colum_domains meta_domains in
    Ok (Some (mk_Table domain (fmap (M:=list) (fmap (M:=list) OCell) (rows data_columns)) meta_columns)).

(** [{r: i for i, r in enumerate(sorted(set(col), key=nonesorter))}] *)
Definition index_of_values (col : list Cell) : result dict :=
  dict_of_enumerate <$> sorted nonesorter (set_iter col).

(** One pass of the loop that writes the indices into a row; the index is
    written as it is, as an array of objects takes it. *)
Definition encode_row (regions admin_regions income_level lending_type : dict)
    (row : list Cell) : result (list Cell) :=
  v ← Np.getitem 1 row; i ← dict_getitem v regions;
  row ← Np.setitem 1 (CInt (Z.of_nat i)) row;
  v ← Np.getitem 2 row; i ← dict_getitem v admin_regions;
  row ← Np.setitem 2 (CInt (Z.of_nat i)) row;
  v ← Np.getitem 3 row; i ← dict_getitem v income_level;
  row ← Np.setitem 3 (CInt (Z.of_nat i)) row;
  v ← Np.getitem 6 row; i ← dict_getitem v lending_type;
  Np.setitem 6 (CInt (Z.of_nat i)) row.

(** An entry of an object array cast by [astype(float)]: [None] becomes
    [nan], anything else goes through [float]. *)
Definition astype_float (c : Cell) : result pyfloat :=
  match c with
  | CNone => Ok nan
  | CInt z => from_option Ok (Raise OverflowError) (float_of_int z)
  | CStr s => from_option Ok (Raise ValueError) (float_of_str s)
  | CDate _ => Raise TypeError
  end.

(** The builtin [float(x)]. *)
Definition py_float (o : Obj) : result pyfloat :=
  match o with
  | OFloat f => Ok f
  | OCell CNone => Raise TypeError
  | OCell c => astype_float c
  end.

(** [np.where(a == v, np.nan, a)] entry by entry, for [v] being [None]
    and the empty string. *)
Definition nan_where_None (o : Obj) : Obj :=
  match o with
  | OCell CNone => OFloat nan
  | _ => o
  end.

Definition nan_where_empty (o : Obj) : Obj :=
  match o with
  | OCell (CStr EmptyString) => OFloat nan
  | _ => o
  end.

(** One pass of the loop over [meta_columns[:, 1:]]: entry [j] of the
    view's row is entry [1 + j] of the row itself. *)
Definition float_row (row : list Obj) : result (list Obj) :=
  v ← Np.getitem (1 + 3) row; f ← py_float v;
  row ← Np.setitem (1 + 3) (OFloat f) row;
  v ← Np.getitem (1 + 4) row; f ← py_float v;
  Np.setitem (1 + 4) (OFloat f) row.

Definition _country_table : result (option Table) :=
  data ← as_np_array false true [];
  if negb (Np.any data) then Ok None
  else
    let meta_columns := Np.cols_upto 7 (Np.rows_from 1 data) in
    let data_columns := Np.cols_from 7 (Np.rows_from 1 data) in
    regions ← Np.column 1 meta_columns ≫= index_of_values;
    admin_regions ← Np.column 2 meta_columns ≫= index_of_values;
    income_level ← Np.column 3 meta_columns ≫= index_of_values;
    lending_type ← Np.column 6 meta_columns ≫= index_of_values;
    region_values ← sorted nonesorter (dict_keys regions);
    admin_region_values ← sorted nonesorter (dict_keys admin_regions);
    income_level_values ← sorted nonesorter (dict_keys income_level);
    lending_type_values ← sorted nonesorter (dict_keys lending_type);
    let meta_domains :=
      [ StringVariable (CStr "Country");
        DiscreteVariable (CStr "Region") region_values;
        DiscreteVariable (CStr "Admin region") admin_region_values;
        DiscreteVariable (CStr "Income level") income_level_values;
        ContinuousVariable (CStr "Longitude");
        ContinuousVariable (CStr "Latitude");
        DiscreteVariable (CStr "Lending type") lending_type_values ] in
    header ← Np.row 0 data;
    let column_domains := fmap (M:=list) ContinuousVariable (drop 7 header) in
    meta_rows ← mapM (encode_row regions admin_regions income_level lending_type)
                  (rows meta_columns);
    let domain := mk_Domain column_domains meta_domains in
    data_rows ← mapM (mapM astype_float) (rows data_columns);
    let meta_rows := fmap (M:=list) (fmap (M:=list) (fun c => nan_where_empty (nan_where_None (OCell c))))
                       meta_rows in
    meta_rows ← mapM float_row meta_rows;
    Ok (Some (mk_Table domain (fmap (M:=list) (fmap (M:=list) OFloat) data_rows) meta_rows)).

Definition as_orange_table (time_series : bool) : result (option Table) :=
  if time_series then _time_series_table else _country_table.

End Methods.

End IndicatorDataset.

(** ** [ClimateDataset] *)

Module ClimateDataset.
Import Py Orange.

(** [as_list] of the wrapped client's climate dataset. *)
Record t : Type := { as_list : kwargs -> list (list Cell) }.

Section Methods.
Context `{Env}.
Variable self : t.

Definition as_np_array (kw : kwargs) : result (ndarray Cell) :=
  IndicatorDataset.filter_columns (as_list self kw).

(** [alpha3_map.get(v, v)] *)
Definition alpha3_get (v : Obj) : Obj :=
  match v with
  | OCell (CStr code) =>
      match get_alpha3_map !! code with
      | Some name => OCell (CStr name)
      | None => v
      end
  | _ => v
  end.

(** One pass of [for row in meta_columns] in [_time_series_table], where
    [meta_columns] is a Python list of lists. *)
Definition normalize_row (row : list Obj) : result (list Obj) :=
  v ← Np.getitem 0 row; Np.setitem 0 (alpha3_get v) row.

(** [alpha3_map.get(v, v)] on an entry of the array. *)
Definition alpha3_get_item (v : Cell) : Cell :=
  match v with
  | CStr code =>
      match get_alpha3_map !! code with
      | Some name => CStr name
      | None => v
      end
  | _ => v
  end.

(** One pass of [for row in meta_columns] in [_country_table], where
    [meta_columns] is a view on the array: [row[0] = ...] stores into the
    array, of dtype [dt]. *)
Definition normalize_item (dt : np_dtype) (row : list Cell) : result (list Cell) :=
  v ← Np.getitem 0 row; Np.setitem 0 (Np.store dt (alpha3_get_item v)) row.

Definition _country_table (kw : kwargs) : result (option Table) :=
  data ← as_np_array kw;
  if (shape0 data <? 2)%nat then Ok None
  else
    let meta_columns := Np.cols_upto 1 (Np.rows_from 1 data) in
    let data_columns := Np.cols_from 1 (Np.rows_from 1 data) in
    meta_rows ← mapM (normalize_item (dtype data)) (rows meta_columns);
    header ← Np.row 0 data;
    let meta_domains := fmap (M:=list) StringVariable (take 1 header) in
    let colum_domains := fmap (M:=list) ContinuousVariable (drop 1 header) in
    let domain := mk_Domain colum_domains meta_domains in
    Ok (Some (mk_Table domain
                (fmap (M:=list) (fmap (M:=list) OCell) (rows data_columns))
                (fmap (M:=list) (fmap (M:=list) OCell) meta_rows))).

Definition _time_series_table (kw : kwargs) : result (option Table) :=
  kw ← add_kwarg "use_dates" (KBool true) kw;
  kw ← add_kwarg "columns" (KStrs ["country"; "type"]) kw;
  data ← as_np_array kw;
  if (shape0 data <? 2)%nat then Ok None
  else
    dates ← Np.column 0 (Np.rows_from 1 data);
    meta_columns ← mapM (IndicatorDataset.timestamp_row) dates;
    let data_columns := Np.cols_from 1 (Np.rows_from 1 data) in
    meta_rows ← mapM normalize_row meta_columns;
    header ← Np.row 0 data;
    let meta_domains := fmap (M:=list) TimeVariable (take 1 header) in
    let colum_domains := fmap (M:=list) ContinuousVariable (drop 1 header) in
    let domain := mk_Domain colum_domains meta_domains in
    Ok (Some (mk_Table domain (fmap (M:=list) (fmap (M:=list) OCell) (rows data_columns)) meta_rows)).

Definition as_orange_table (time_series : bool) (kw : kwargs)
  : result (option Table) :=
  if time_series then _time_series_table kw else _country_table kw.

End Methods.

End ClimateDataset.

(** ** The older module, [orangecontrib/wbd/api_wrapper.py]

    It differs from the module above in three methods of
    [IndicatorDataset]; the rest ([as_np_array], [_time_series_table], and
    the climate builders without keyword arguments) is the same code. *)

Module Wbd.
Import Py Orange.

(** [test_function] *)
Definition test_function : Cell := CStr "aa".

Section GetIsoDate.

Variable today : date.

(** The quarter and month branches call [datetime.date_str], which the
    [datetime] module does not have: looking the callee up raises
    [AttributeError] before any argument is evaluated. *)
Definition _get_iso_date (date_str : string) : result Cell :=
  except_ValueError
    (if PyStr.contains "Q" date_str then
       '(year, quarter) ← PyStr.unpack2 (PyStr.split "Q" date_str);
       Raise AttributeError
     else if PyStr.contains "M" date_str then
       '(year, month) ← PyStr.unpack2 (PyStr.split "M" date_str);
       Raise AttributeError
     else
       y ← PyStr.py_int date_str;
       d ← PyDate.datetime_date y 1 1;
       Ok (CStr (PyDate.isoformat d)))
    (Ok (CStr (PyDate.isoformat today))).

End GetIsoDate.

Section Methods.
Context `{Env}.
Variable self : IndicatorDataset.t.

Definition _country_table : result (option Table) :=
  data ← IndicatorDataset.as_np_array self false true [];
  if negb (Np.any data) then Ok None
  else
    let meta_columns := Np.cols_upto 7 (Np.rows_from 1 data) in
    let data_columns := Np.cols_from 7 (Np.rows_from 1 data) in
    header ← Np.row 0 data;
    let meta_domains := fmap (M:=list) StringVariable (take 7 header) in
    let colum_domains := fmap (M:=list) ContinuousVariable (drop 7 header) in
    let domain := mk_Domain colum_domains meta_domains in
    Ok (Some (mk_Table domain
                (fmap (M:=list) (fmap (M:=list) OCell) (rows data_columns))
                (fmap (M:=list) (fmap (M:=list) OCell) (rows meta_columns)))).

Definition as_orange_table (time_series : bool) : result (option Table) :=
  if time_series then IndicatorDataset._time_series_table self
  else _country_table.

End Methods.

End Wbd.

(** ** The store: objects, aliasing and in-place updates

    The pure model above computes with values.  To see what a call does to
    the objects around it, the same methods are written once more over a
    store: the raw lists of the client and the arrays live at locations, a
    slice is a view that shares the buffer of its base array, and [row[j] =
    v] writes through the view. *)

Module Store.
Import Py Orange.

Section WithEnv.
Context `{Env}.

Definition loc : Set := nat.

Inductive hobj : Type :=
  | HList (raw : list (list Cell))
  | HArray1 (items : nat)
  | HCells (a : ndarray Cell)
  | HObjs (a : ndarray Obj).

Definition heap : Type := gmap loc hobj.

(** Computations that read and write the store and may raise; the store
    survives an exception. *)
Definition M (A : Type) : Type := heap -> result A * heap.

Definition ret {A} (a : A) : M A := fun h => (Ok a, h).

Definition bind {A B} (m : M A) (k : A -> M B) : M B :=
  fun h => match m h with
           | (Ok a, h') => k a h'
           | (Raise e, h') => (Raise e, h')
           end.

(** A step that does not touch the store. *)
Definition lift {A} (r : result A) : M A := fun h => (r, h).

(** A new object, at a location not in use. *)
Definition alloc (o : hobj) : M loc :=
  fun h => let l := fresh (dom h) in (Ok l, <[l:=o]> h).

Definition read_list (l : loc) : M (list (list Cell)) :=
  fun h => match h !! l with
           | Some (HList raw) => (Ok raw, h)
           | _ => (Raise TypeError, h)
           end.

Definition as_cells (o : hobj) : option (ndarray Cell) :=
  match o with HCells a => Some a | _ => None end.

Definition as_objs (o : hobj) : option (ndarray Obj) :=
  match o with HObjs a => Some a | _ => None end.

Section Arrays.
Context {A : Type}.
Variable get : hobj -> option (ndarray A).
Variable put : ndarray A -> hobj.

(** The buffer of a two-axis array; an array with one axis has none to
    index with two subscripts. *)
Definition read_array (l : loc) : M (ndarray A) :=
  fun h => match h !! l ≫= get with
           | Some a => (Ok a, h)
           | None => (Raise IndexError, h)
           end.

Definition write_array (l : loc) (a : ndarray A) : M unit :=
  fun h => (Ok tt, <[l:=put a]> h).

(** A basic slice: a window on the buffer at [base], from row [row0] on,
    over the columns from [col0] up to (not including) [col1]. *)
Record view : Set := mk_view {
  base : loc;
  row0 : nat;
  col0 : nat;
  col1 : option nat
}.

Definition whole (l : loc) : view := mk_view l 0 0 None.

(** [v[k:, :]], [v[:, k:]] and [v[:, :k]]: no copy, the same buffer. *)
Definition v_rows_from (k : nat) (v : view) : view :=
  mk_view (base v) (row0 v + k) (col0 v) (col1 v).

Definition v_cols_from (k : nat) (v : view) : view :=
  mk_view (base v) (row0 v) (col0 v + k) (col1 v).

Definition v_cols_upto (k : nat) (v : view) : view :=
  mk_view (base v) (row0 v) (col0 v)
    (Some (match col1 v with
           | Some b => Nat.min (col0 v + k) b
           | None => col0 v + k
           end)%nat).

(** What a view shows of its buffer. *)
Definition window (v : view) (a : ndarray A) : ndarray A :=
  let a := Np.rows_from (row0 v) a in
  let a := match col1 v with
           | Some b => Np.cols_upto b a
           | None => a
           end in
  Np.cols_from (col0 v) a.

Definition read_view (v : view) : M (ndarray A) :=
  bind (read_array (base v)) (fun a => ret (window v a)).

(** [v[i, j]] *)
Definition getitem_view (v : view) (i j : nat) : M A :=
  bind (read_view v) (fun w =>
    lift (match rows w !! i ≫= fun r => r !! j with
          | Some x => Ok x
          | None => Raise IndexError
          end)).

(** [v[i, j] = x]: the entry of the buffer behind the view is overwritten
    with [x] as it is. *)
Definition setitem_view (v : view) (i j : nat) (x : A) : M unit :=
  bind (read_array (base v)) (fun a =>
    let w := window v a in
    if (i <? shape0 w)%nat && (j <? shape1 w)%nat
    then write_array (base v)
           (mk_array (dtype a) (shape0 a) (shape1 a)
              (alter (fun r => <[(col0 v + j)%nat:=x]> r) (row0 v + i)%nat (rows a)))
    else lift (Raise IndexError)).

End Arrays.

(** [for x in l: body(x)] *)
Fixpoint for_each {B} (l : list B) (body : B -> M unit) : M unit :=
  match l with
  | [] => ret tt
  | x :: l' => bind (body x) (fun _ => for_each l' body)
  end.

(** The body of either class's [as_np_array] on the list at [l]:
    [np.array] copies the list into a new array, and indexing with the list
    of column indices copies once more. *)
Definition filter_columns (l : loc) : M view :=
  bind (read_list l) (fun raw =>
  match Np.np_array raw with
  | Array1 n =>
      bind (alloc (HArray1 n)) (fun data =>
      bind (read_view as_cells (v_rows_from 1 (whole data))) (fun _ =>
      ret (whole data)))
  | Array2 a =>
      bind (alloc (HCells a)) (fun data =>
      bind (read_view as_cells (whole data)) (fun d =>
      let filter_ := IndicatorDataset.column_filter d in
      bind (lift (Np.take_columns filter_ d)) (fun out =>
      bind (alloc (HCells out)) (fun l' =>
      ret (whole l')))))
  end).

#[local] Instance M_ret : MRet M := @ret.
#[local] Instance M_bind : MBind M := fun A B k m => bind m k.

(** The dataset as an object in the store: the client's [as_list] hands
    over a list that lives in the store, at worst the stored raw data
    itself, and does not write to the store. *)
Record IndicatorObject : Set :=
  { ind_as_list : bool -> bool -> kwargs -> loc }.

Record ClimateObject : Set :=
  { cl_as_list : kwargs -> loc }.

Section Indicator.
Variable self : IndicatorObject.

Definition as_np_array (time_series add_metadata : bool) (kw : kwargs) : M view :=
  filter_columns (ind_as_list self time_series add_metadata kw).

Definition _time_series_table : M (option Table) :=
  data ← as_np_array true false [];
  d ← read_view as_cells data;
  if negb (Np.any d) then mret None
  else
    body ← read_view as_cells (v_rows_from 1 data);
    dates ← lift (Np.column 0 body);
    meta_columns ← lift (mapM IndicatorDataset.timestamp_row dates);
    data_columns ← read_view as_cells (v_cols_from 1 (v_rows_from 1 data));
    let meta_domains := [TimeVariable (CStr "Date")] in
    header ← lift (Np.row 0 d);
    let colum_domains := fmap (M:=list) ContinuousVariable (drop 1 header) in
    let domain := mk_Domain colum_domains meta_domains in
    mret (Some (mk_Table domain
                  (fmap (M:=list) (fmap (M:=list) OCell) (rows data_columns))
                  meta_columns)).

(** One pass of [for row in meta_columns], on row [i] of the view. *)
Definition encode_row (regions admin_regions income_level lending_type : dict)
    (meta_columns : view) (i : nat) : M unit :=
  v ← getitem_view as_cells meta_columns i 1;
  k ← lift (dict_getitem v regions);
  _ ← setitem_view as_cells HCells meta_columns i 1 (CInt (Z.of_nat k));
  v ← getitem_view as_cells meta_columns i 2;
  k ← lift (dict_getitem v admin_regions);
  _ ← setitem_view as_cells HCells meta_columns i 2 (CInt (Z.of_nat k));
  v ← getitem_view as_cells meta_columns i 3;
  k ← lift (dict_getitem v income_level);
  _ ← setitem_view as_cells HCells meta_columns i 3 (CInt (Z.of_nat k));
  v ← getitem_view as_cells meta_columns i 6;
  k ← lift (dict_getitem v lending_type);
  setitem_view as_cells HCells meta_columns i 6 (CInt (Z.of_nat k)).

(** One pass of [for row in meta_columns[:, 1:]], on row [i] of the view. *)
Definition float_row (shifted : view) (i : nat) : M unit :=
  v ← getitem_view as_objs shifted i 3;
  f ← lift (IndicatorDataset.py_float v);
  _ ← setitem_view as_objs HObjs shifted i 3 (OFloat f);
  v ← getitem_view as_objs shifted i 4;
  f ← lift (IndicatorDataset.py_float v);
  setitem_view as_objs HObjs shifted i 4 (OFloat f).

(** [np.where(a == v, np.nan, a)]: a new array. *)
Definition np_where (f : Obj -> Obj) (a : ndarray Obj) : M view :=
  l ← alloc (HObjs (mk_ndarray (shape0 a) (shape1 a)
                      (fmap (M:=list) (fmap (M:=list) f) (rows a))));
  mret (whole l).

Definition _country_table : M (option Table) :=
  data ← as_np_array false true [];
  d ← read_view as_cells data;
  if negb (Np.any d) then mret None
  else
    let meta_columns := v_cols_upto 7 (v_rows_from 1 data) in
    let data_columns := v_cols_from 7 (v_rows_from 1 data) in
    m ← read_view as_cells meta_columns;
    regions ← lift (Np.column 1 m ≫= IndicatorDataset.index_of_values);
    admin_regions ← lift (Np.column 2 m ≫= IndicatorDataset.index_of_values);
    income_level ← lift (Np.column 3 m ≫= IndicatorDataset.index_of_values);
    lending_type ← lift (Np.column 6 m ≫= IndicatorDataset.index_of_values);
    region_values ← lift (sorted IndicatorDataset.nonesorter (dict_keys regions));
    admin_region_values ←
      lift (sorted IndicatorDataset.nonesorter (dict_keys admin_regions));
    income_level_values ←
      lift (sorted IndicatorDataset.nonesorter (dict_keys income_level));
    lending_type_values ←
      lift (sorted IndicatorDataset.nonesorter (dict_keys lending_type));
    let meta_domains :=
      [ StringVariable (CStr "Country");
        DiscreteVariable (CStr "Region") region_values;
        DiscreteVariable (CStr "Admin region") admin_region_values;
        DiscreteVariable (CStr "Income level") income_level_values;
        ContinuousVariable (CStr "Longitude");
        ContinuousVariable (CStr "Latitude");
        DiscreteVariable (CStr "Lending type") lending_type_values ] in
    header ← lift (Np.row 0 d);
    let column_domains := fmap (M:=list) ContinuousVariable (drop 7 header) in
    _ ← for_each (seq 0 (shape0 m))
          (encode_row regions admin_regions income_level lending_type
             meta_columns);
    let domain := mk_Domain column_domains meta_domains in
    dc ← read_view as_cells data_columns;
    data_rows ← lift (mapM (mapM IndicatorDataset.astype_float) (rows dc));
    data_columns ← np_where id
      (mk_ndarray (shape0 dc) (shape1 dc)
         (fmap (M:=list) (fmap (M:=list) OFloat) data_rows));
    x ← read_view as_objs data_columns;
    data_columns ← np_where id x;
    x ← read_view as_objs data_columns;
    data_columns ← np_where id x;
    m ← read_view as_cells meta_columns;
    meta_columns ← np_where IndicatorDataset.nan_where_None
      (mk_ndarray (shape0 m) (shape1 m)
         (fmap (M:=list) (fmap (M:=list) OCell) (rows m)));
    m ← read_view as_objs meta_columns;
    meta_columns ← np_where IndicatorDataset.nan_where_empty m;
    m ← read_view as_objs meta_columns;
    _ ← for_each (seq 0 (shape0 m)) (float_row (v_cols_from 1 meta_columns));
    x ← read_view as_objs data_columns;
    m ← read_view as_objs meta_columns;
    mret (Some (mk_Table domain (rows x) (rows m))).

Definition as_orange_table (time_series : bool) : M (option Table) :=
  if time_series then _time_series_table else _country_table.

End Indicator.

Section Climate.
Variable self : ClimateObject.

Definition climate_as_np_array (kw : kwargs) : M view :=
  filter_columns (cl_as_list self kw).

(** One pass of [for row in meta_columns], on row [i] of the view. *)
Definition normalize_row (meta_columns : view) (i : nat) : M unit :=
  v ← getitem_view as_cells meta_columns i 0;
  a ← read_array as_cells (base meta_columns);
  setitem_view as_cells HCells meta_columns i 0
    (Np.store (dtype a) (ClimateDataset.alpha3_get_item v)).

Definition climate_country_table (kw : kwargs) : M (option Table) :=
  data ← climate_as_np_array kw;
  d ← read_view as_cells data;
  if (shape0 d <? 2)%nat then mret None
  else
    let meta_columns := v_cols_upto 1 (v_rows_from 1 data) in
    let data_columns := v_cols_from 1 (v_rows_from 1 data) in
    m ← read_view as_cells meta_columns;
    _ ← for_each (seq 0 (shape0 m)) (normalize_row meta_columns);
    header ← lift (Np.row 0 d);
    let meta_domains := fmap (M:=list) StringVariable (take 1 header) in
    let colum_domains := fmap (M:=list) ContinuousVariable (drop 1 header) in
    let domain := mk_Domain colum_domains meta_domains in
    x ← read_view as_cells data_columns;
    m ← read_view as_cells meta_columns;
    mret (Some (mk_Table domain
                  (fmap (M:=list) (fmap (M:=list) OCell) (rows x))
                  (fmap (M:=list) (fmap (M:=list) OCell) (rows m)))).

Definition climate_time_series_table (kw : kwargs) : M (option Table) :=
  kw ← lift (add_kwarg "use_dates" (KBool true) kw);
  kw ← lift (add_kwarg "columns" (KStrs ["country"; "type"]) kw);
  data ← climate_as_np_array kw;
  d ← read_view as_cells data;
  if (shape0 d <? 2)%nat then mret None
  else
    body ← read_view as_cells (v_rows_from 1 data);
    dates ← lift (Np.column 0 body);
    meta_columns ← lift (mapM IndicatorDataset.timestamp_row dates);
    data_columns ← read_view as_cells (v_cols_from 1 (v_rows_from 1 data));
    meta_rows ← lift (mapM ClimateDataset.normalize_row meta_columns);
    header ← lift (Np.row 0 d);
    let meta_domains := fmap (M:=list) TimeVariable (take 1 header) in
    let colum_domains := fmap (M:=list) ContinuousVariable (drop 1 header) in
    let domain := mk_Domain colum_domains meta_domains in
    mret (Some (mk_Table domain
                  (fmap (M:=list) (fmap (M:=list) OCell) (rows data_columns))
                  meta_rows)).

Definition climate_as_orange_table (time_series : bool) (kw : kwargs)
  : M (option Table) :=
  if time_series then climate_time_series_table kw else climate_country_table kw.

End Climate.

(** The dataset the pure model sees when the object's lists are read from
    the store [h]. *)
Definition list_at (h : heap) (l : loc) : list (list Cell) :=
  match h !! l with
  | Some (HList raw) => raw
  | _ => []
  end.

Definition indicator_values (h : heap) (self : IndicatorObject) : IndicatorDataset.t :=
  {| IndicatorDataset.as_list := fun time_series add_metadata kw =>
       list_at h (ind_as_list self time_series add_metadata kw) |}.

Definition climate_values (h : heap) (self : ClimateObject) : ClimateDataset.t :=
  {| ClimateDataset.as_list := fun kw => list_at h (cl_as_list self kw) |}.

(** Every list the object can hand over is in the store. *)
Definition lists_in_store (h : heap) (refs : loc -> Prop) : Prop :=
  forall l, refs l -> exists raw, h !! l = Some (HList raw).

(** [h'] keeps every object of [h] as it was. *)
Definition unchanged (h h' : heap) : Prop :=
  forall l o, h !! l = Some o -> h' !! l = Some o.

(** From any store that still holds the objects of [h0] as they were, the
    computation [c] leaves them as they were, and what it returns
    satisfies [Q]. *)
Definition safe {A} (h0 : heap) (c : M A) (Q : A -> Prop) : Prop :=
  forall h, unchanged h0 h ->
    unchanged h0 (c h).2 /\ forall a, (c h).1 = Ok a -> Q a.

(** A view on an array that did not exist in [h0]. *)
Definition fresh_view (h0 : heap) (v : view) : Prop := h0 !! base v = None.

End WithEnv.

End Store.

(** ** Vocabulary of the statements *)

Module Spec.

(** Entry [(i, j)] of a raw table, row 0 being the header. *)
Definition entry {A} (raw : list (list A)) (i j : nat) : option A :=
  raw !! i ≫= fun r => r !! j.

(** Column [j] holds a true value below the header row. *)
Definition column_has_value (raw : list (list Cell)) (j : nat) : Prop :=
  exists i c, (1 <= i)%nat /\ entry raw i j = Some c /\ truthy c = true.

(** An empty entry: [None] or the empty string. *)
Definition is_empty (c : Cell) : Prop := c = CNone \/ c = CStr EmptyString.

(** Every entry of column [j] below the header row is empty. *)
Definition column_all_empty (raw : list (list Cell)) (j : nat) : Prop :=
  forall i c, (1 <= i)%nat -> entry raw i j = Some c -> is_empty c.

(** The rows agree with the stored shape. *)
Definition well_formed {A} (a : ndarray A) : Prop :=
  length (rows a) = shape0 a /\ Forall (fun r => length r = shape1 a) (rows a).

(** [out] is [raw] cut down to the columns [idx], in the order of [idx]:
    same rows, and entry [k] of a row is the old entry [idx[k]]. *)
Definition restricted_to {A} (idx : list nat) (raw : list (list A))
    (out : ndarray A) : Prop :=
  shape0 out = length raw
  /\ shape1 out = length idx
  /\ length (rows out) = length raw
  /\ forall i r, raw !! i = Some r ->
       exists r', rows out !! i = Some r'
                  /\ length r' = length idx
                  /\ forall k j, idx !! k = Some j -> r' !! k = r !! j.

(** Every entry of column [j] below the header row is false: [None], the
    empty string or zero. *)
Definition column_all_false (raw : list (list Cell)) (j : nat) : Prop :=
  forall i c, (1 <= i)%nat -> entry raw i j = Some c -> truthy c = false.

(** The column indices of a raw table with a true value below the header
    row, in increasing order. *)
Definition kept_columns (raw : list (list Cell)) : list nat :=
  List.filter (fun j => Np.py_any (omap (fun r => r !! j) (drop 1 raw)))
    (seq 0 (length (hd [] raw))).

(** The table holds a [None] or a date: [numpy.array] keeps its cells as
    Python objects. *)
Definition object_table (raw : list (list Cell)) : Prop :=
  exists r c, r ∈ raw /\ c ∈ r /\ (c = CNone \/ exists d, c = CDate d).

(** A string, or an integer that fits a C [long] of 64 bits. *)
Definition text_cell (c : Cell) : Prop :=
  (exists s, c = CStr s) \/ (exists z, c = CInt z /\ - 2 ^ 63 <= z < 2 ^ 63).

(** The table holds strings and integers that fit 64 signed bits, and at
    least one string: [numpy.array] makes it an array of text. *)
Definition text_table (raw : list (list Cell)) : Prop :=
  (forall r c, r ∈ raw -> c ∈ r -> text_cell c)
  /\ exists r s, r ∈ raw /\ CStr s ∈ r.

(** The only exceptions [m] can raise are those in [P]. *)
Definition raises_only {A} (P : exn -> Prop) (m : result A) : Prop :=
  forall e, m = Raise e -> P e.




End Spec.

(** ** A sample runtime

    One admissible runtime, used to run the model on examples: floats are
    integers or [nan], [float] reads integer literals only, [time.mktime]
    counts whole days of 86400 seconds in a calendar of 31-day months, and a
    set is iterated in order of first occurrence. *)

Module Sample.

Definition sample_float_of_str (s : string) : option (option Z) :=
  match PyStr.py_int s with
  | Ok z => Some (Some z)
  | Raise _ => None
  end.

Definition sample_mktime (d : date) : result (option Z) :=
  Ok (Some (86400 * (((year d - 1970) * 12 + (month d - 1)) * 31 + (day d - 1)))).

Definition sample_alpha3_map : gmap string string :=
  <["SVN" := "Slovenia"]> (<["USA" := "United States"]> ∅).

#[local] Instance sample_env : Env := {|
  pyfloat := option Z;
  nan := None;
  float_of_str := sample_float_of_str;
  float_of_int := fun z => Some (Some z);
  mktime := sample_mktime;
  set_iter := remove_dups;
  set_iter_NoDup := NoDup_remove_dups;
  set_iter_elem := fun l x => elem_of_remove_dups l x;
  get_alpha3_map := sample_alpha3_map
|}.

(** Datasets whose client returns one fixed raw list. *)
Definition indicator (raw : list (list Cell)) : IndicatorDataset.t :=
  {| IndicatorDataset.as_list := fun _ _ _ => raw |}.

Definition climate (raw : list (list Cell)) : ClimateDataset.t :=
  {| ClimateDataset.as_list := fun _ => raw |}.

(** A time series with an all-zero column "X". *)
Definition zero_column_table : list (list Cell) :=
  [ [CStr "Date"; CStr "X"; CStr "Y"];
    [CDate (mkdate 2000 1 1); CInt 0; CNone];
    [CDate (mkdate 2001 1 1); CInt 0; CInt 5] ].

(** Countries with their seven columns of metadata and two indicators. *)
Definition countries_table : list (list Cell) :=
  [ [CStr "Country"; CStr "Region"; CStr "Admin region"; CStr "Income level";
     CStr "Longitude"; CStr "Latitude"; CStr "Lending type";
     CStr "SP.POP.TOTL"; CStr "NY.GDP.MKTP.CD"];
    [CStr "Slovenia"; CStr "Europe & Central Asia"; CStr "";
     CStr "High income"; CStr "14"; CStr "46"; CStr "Not classified";
     CInt 2; CNone];
    [CStr "Brazil"; CStr "Latin America & Caribbean";
     CStr "Latin America & Caribbean"; CStr "Upper middle income";
     CStr "-47"; CStr "-15"; CStr "IBRD"; CInt 200; CInt 7];
    [CStr "World"; CStr ""; CNone; CStr "High income"; CStr ""; CStr "";
     CStr "Not classified"; CNone; CNone] ].

(** Aggregates come without metadata: six of the seven metadata columns are
    empty throughout, and so is the second indicator. *)
Definition aggregates_table : list (list Cell) :=
  [ [CStr "Country"; CStr "Region"; CStr "Admin region"; CStr "Income level";
     CStr "Longitude"; CStr "Latitude"; CStr "Lending type";
     CStr "SP.POP.TOTL"; CStr "NY.GDP.MKTP.CD"];
    [CStr "World"; CStr ""; CStr ""; CStr ""; CStr ""; CStr ""; CStr "";
     CInt 7; CNone];
    [CStr "Arab World"; CStr ""; CStr ""; CStr ""; CStr ""; CStr ""; CStr "";
     CInt 3; CNone] ].

(** A time series whose first column holds ISO strings, as
    [_get_iso_date] returns them for plain years. *)
Definition iso_string_table : list (list Cell) :=
  [ [CStr "Date"; CStr "SVN"];
    [CStr "2000-01-01"; CInt 2];
    [CStr "2001-01-01"; CNone] ].

Definition climate_table : list (list Cell) :=
  [ [CStr "country"; CStr "1920"; CStr "1940"];
    [CStr "SVN"; CInt 2; CNone];
    [CStr "XXX"; CInt 200; CInt 7] ].

End Sample.

(** * Properties *)

(** ** Facts about the string primitives *)

Module PyStrFacts.
Import PyStr.

Lemma contains_app c a b :
  contains c (a +:+ b) = contains c a || contains c b.
Proof.
  induction a as [|x a IH]; simpl; [reflexivity|].
  rewrite IH. apply orb_assoc.
Qed.

Lemma contains_skip_spaces c s :
  is_space c = false -> contains c (skip_spaces s) = contains c s.
Proof.
  intros Hc. induction s as [|a s IH]; simpl; [reflexivity|].
  destruct (is_space a) eqn:Ha; [|reflexivity].
  rewrite IH. destruct (Ascii.eqb_spec a c) as [->|_]; [congruence|reflexivity].
Qed.

Lemma contains_scan_sign c s :
  Ascii.eqb "-" c = false -> Ascii.eqb "+" c = false ->
  contains c (snd (scan_sign s)) = contains c s.
Proof.
  intros Hm Hp. destruct s as [|a s]; [reflexivity|].
  cbn [scan_sign contains].
  destruct (Ascii.eqb_spec a "-") as [->|_]; [now rewrite Hm|].
  destruct (Ascii.eqb_spec a "+") as [->|_]; [now rewrite Hp|].
  reflexivity.
Qed.

Lemma contains_scan_digits c s :
  is_digit c = false -> Ascii.eqb "_" c = false ->
  forall p acc n v d rest,
    scan_digits s p acc n = Some (v, d, rest) ->
    contains c s = contains c rest.
Proof.
  intros Hd Hu. induction s as [|a s IH]; cbn [scan_digits contains];
    intros p acc n v d rest H.
  - destruct p; [discriminate|]. now inversion H.
  - destruct (is_digit a) eqn:Ha.
    + rewrite <- (IH _ _ _ _ _ _ H).
      destruct (Ascii.eqb_spec a c) as [->|_]; [congruence|reflexivity].
    + destruct (Ascii.eqb_spec a "_") as [->|_].
      * destruct p; [discriminate|]. rewrite Hu. cbn [orb]. eauto.
      * destruct p; [discriminate|]. now inversion H.
Qed.

(** The characters an integer literal is made of. *)
Definition int_char (c : ascii) : bool :=
  is_space c || is_digit c || Ascii.eqb "_" c || Ascii.eqb "-" c || Ascii.eqb "+" c.

Lemma py_int_contains c s z :
  py_int s = Ok z -> int_char c = false -> contains c s = false.
Proof.
  unfold py_int, int_char. intros H Hc.
  apply orb_false_elim in Hc as [Hc Hplus].
  apply orb_false_elim in Hc as [Hc Hminus].
  apply orb_false_elim in Hc as [Hc Hus].
  apply orb_false_elim in Hc as [Hsp Hdg].
  rewrite <- (contains_skip_spaces c s) by assumption.
  rewrite <- (contains_scan_sign c (skip_spaces s)) by assumption.
  destruct (scan_sign (skip_spaces s)) as [neg body]; cbn [snd].
  destruct (starts_with_underscore body); [discriminate|].
  destruct (scan_digits body false 0 0) as [[[v d] rest]|] eqn:Hs; [|discriminate].
  rewrite (contains_scan_digits c body Hdg Hus _ _ _ _ _ _ Hs).
  destruct (d =? 0)%nat; [discriminate|].
  destruct (String.eqb_spec (skip_spaces rest) EmptyString) as [Hr|]; [|discriminate].
  rewrite <- (contains_skip_spaces c rest) by assumption.
  now rewrite Hr.
Qed.

Lemma split_single c s : contains c s = false -> split c s = [s].
Proof.
  induction s as [|a s IH]; simpl; [reflexivity|].
  intros H. apply orb_false_elim in H as [Ha Hs].
  rewrite Ha, (IH Hs). reflexivity.
Qed.

Lemma split_app c a b :
  contains c a = false -> split c (a +:+ String c b) = a :: split c b.
Proof.
  induction a as [|x a IH]; simpl.
  - intros _. now rewrite Ascii.eqb_refl.
  - intros H. apply orb_false_elim in H as [Hx Ha].
    rewrite Hx, (IH Ha). reflexivity.
Qed.

Lemma split_two c a b :
  contains c a = false -> contains c b = false ->
  split c (a +:+ String c b) = [a; b].
Proof. intros Ha Hb. now rewrite split_app, split_single. Qed.

(** Text that fits the width is not cut. *)
Lemma truncate_all n s : (String.length s <= n)%nat -> truncate n s = s.
Proof.
  revert n. induction s as [|c s IH]; intros [|n] Hn; try reflexivity.
  - cbn in Hn. lia.
  - cbn in Hn |- *. rewrite IH by lia. reflexivity.
Qed.




(** Text that does not start with a NUL character is not empty. *)
Lemma rstrip_nul_head c s :
  Ascii.eqb c "000" = false -> rstrip_nul (String c s) <> EmptyString.
Proof.
  intros Hc. cbn [rstrip_nul]. destruct (rstrip_nul s); [|discriminate].
  now rewrite Hc.
Qed.

(** The decimal text of an integer starts with a digit or a minus sign. *)
Lemma str_of_int_head z :
  exists c s, str_of_int z = String c s /\ Ascii.eqb c "000" = false.
Proof.
  unfold str_of_int. destruct z as [|p|p]; cbn.
  - eauto.
  - destruct (Pos.to_uint p); cbn; eauto.
  - eauto.
Qed.

End PyStrFacts.

Module PyDateFacts.
Import PyDate.

Lemma days_in_month_lower y m : 28 <= days_in_month y m.
Proof.
  unfold days_in_month.
  repeat match goal with |- context [if ?b then _ else _] => destruct b end; lia.
Qed.

(** The first day of a month of a representable year is always a date. *)
Lemma datetime_date_first y m :
  MINYEAR <= y <= MAXYEAR -> 1 <= m <= 12 ->
  datetime_date y m 1 = Ok (mkdate y m 1).
Proof.
  unfold datetime_date, fits_c_int, MINYEAR, MAXYEAR. intros Hy Hm.
  pose proof (days_in_month_lower y m) as Hd.
  change (- 2 ^ 31) with (-2147483648).
  change (2 ^ 31) with 2147483648.
  rewrite !(proj2 (Z.leb_le _ _)) by lia.
  rewrite !(proj2 (Z.ltb_lt _ _)) by lia.
  reflexivity.
Qed.

End PyDateFacts.

(** ** [_get_iso_date] on the documented formats *)

Example get_iso_date_2002Q3 (t : date) :
  IndicatorDataset._get_iso_date t "2002Q3" = Ok (CDate (mkdate 2002 7 1)).
Proof. reflexivity. Qed.

Example get_iso_date_1999M7 (t : date) :
  IndicatorDataset._get_iso_date t "1999M7" = Ok (CDate (mkdate 1999 7 1)).
Proof. reflexivity. Qed.

Example get_iso_date_2005 (t : date) :
  IndicatorDataset._get_iso_date t "2005" = Ok (CStr "2005-01-01").
Proof. reflexivity. Qed.

Example get_iso_date_last_known (t : date) :
  IndicatorDataset._get_iso_date (mkdate 2016 5 4) "Last Known Value" = Ok (CStr "2016-05-04").
Proof. reflexivity. Qed.

Example get_iso_date_range (t : date) :
  IndicatorDataset._get_iso_date (mkdate 2016 5 4) "1988-2000" = Ok (CStr "2016-05-04").
Proof. reflexivity. Qed.


Module GetIsoDateFacts.
Import PyStr PyStrFacts PyDate PyDateFacts IndicatorDataset.

Lemma contains_sep c a b : contains c (a +:+ String c b) = true.
Proof.
  rewrite contains_app. cbn [contains]. rewrite Ascii.eqb_refl.
  apply orb_true_r.
Qed.

(** A well-formed ["<year><sep><number>"] string is cut at its separator. *)
Lemma unpack_parts c ys ns y n :
  int_char c = false -> py_int ys = Ok y -> py_int ns = Ok n ->
  unpack2 (split c (ys +:+ String c ns)) = Ok (ys, ns).
Proof.
  intros Hc Hy Hn. rewrite split_two; [reflexivity| |].
  - exact (py_int_contains c ys y Hy Hc).
  - exact (py_int_contains c ns n Hn Hc).
Qed.

Lemma quarter_string today ys ns y n :
  py_int ys = Ok y -> py_int ns = Ok n ->
  MINYEAR <= y <= MAXYEAR -> 1 <= n <= 4 ->
  _get_iso_date today (ys +:+ String "Q" ns) = Ok (CDate (mkdate y (3 * n - 2) 1)).
Proof.
  intros Hy Hn Hyr Hq. unfold _get_iso_date.
  rewrite contains_sep, (unpack_parts "Q" ys ns y n) by (reflexivity || assumption).
  cbn [mbind result_bind]. rewrite Hy, Hn. cbn [mbind result_bind].
  rewrite datetime_date_first by lia.
  cbn. do 3 f_equal. lia.
Qed.

Lemma month_string today ys ns y n :
  py_int ys = Ok y -> py_int ns = Ok n ->
  MINYEAR <= y <= MAXYEAR -> 1 <= n <= 12 ->
  _get_iso_date today (ys +:+ String "M" ns) = Ok (CDate (mkdate y n 1)).
Proof.
  intros Hy Hn Hyr Hm. unfold _get_iso_date.
  assert (contains "Q" (ys +:+ String "M" ns) = false) as ->.
  { rewrite contains_app. cbn [contains].
    rewrite (py_int_contains "Q" ys y Hy), (py_int_contains "Q" ns n Hn);
      reflexivity. }
  rewrite contains_sep, (unpack_parts "M" ys ns y n) by (reflexivity || assumption).
  cbn [mbind result_bind]. rewrite Hy, Hn. cbn [mbind result_bind].
  rewrite datetime_date_first by lia. reflexivity.
Qed.

Lemma year_string today ys y :
  py_int ys = Ok y -> MINYEAR <= y <= MAXYEAR ->
  _get_iso_date today ys = Ok (CStr (isoformat (mkdate y 1 1))).
Proof.
  intros Hy Hyr. unfold _get_iso_date.
  rewrite (py_int_contains "Q" ys y Hy), (py_int_contains "M" ys y Hy)
    by reflexivity.
  cbn [mbind result_bind]. rewrite Hy. cbn [mbind result_bind].
  rewrite datetime_date_first by lia. reflexivity.
Qed.

Lemma isoformat_new_year y :
  isoformat (mkdate y 1 1) = fmt04 y +:+ "-01-01".
Proof. reflexivity. Qed.

End GetIsoDateFacts.

(** C2.  For a date string ["<year>Q<q>"] with [q] in 1..4,
    [_get_iso_date] returns the date [(year, 3*q - 2, 1)], the first day of
    the quarter; for ["<year>M<m>"] with [m] in 1..12 it returns
    [(year, m, 1)]; for a plain year it returns January 1 of that year as the
    ISO string ["yyyy-01-01"].  The year and the number are any literals
    [int] reads, the year one that a date can hold (1..9999). *)
Theorem get_iso_date_formats (today : date) (ys ns : string) (y n : Z) :
  PyStr.py_int ys = Ok y -> PyStr.py_int ns = Ok n ->
  PyDate.MINYEAR <= y <= PyDate.MAXYEAR ->
  (1 <= n <= 4 ->
   IndicatorDataset._get_iso_date today (ys +:+ "Q" +:+ ns)
   = Ok (CDate (mkdate y (3 * n - 2) 1)))
  /\ (1 <= n <= 12 ->
      IndicatorDataset._get_iso_date today (ys +:+ "M" +:+ ns)
      = Ok (CDate (mkdate y n 1)))
  /\ IndicatorDataset._get_iso_date today ys
     = Ok (CStr (PyStr.fmt04 y +:+ "-01-01")).
Proof.
  intros Hy Hn Hyr. repeat split.
  - intros Hq. exact (GetIsoDateFacts.quarter_string today ys ns y n Hy Hn Hyr Hq).
  - intros Hm. exact (GetIsoDateFacts.month_string today ys ns y n Hy Hn Hyr Hm).
  - rewrite <- GetIsoDateFacts.isoformat_new_year.
    exact (GetIsoDateFacts.year_string today ys y Hy Hyr).
Qed.

Lemma get_iso_date_formats_witness :
  IndicatorDataset._get_iso_date (mkdate 2016 5 4) "2002Q3"
  = Ok (CDate (mkdate 2002 7 1))
  /\ IndicatorDataset._get_iso_date (mkdate 2016 5 4) "2002M3"
     = Ok (CDate (mkdate 2002 3 1))
  /\ IndicatorDataset._get_iso_date (mkdate 2016 5 4) "2002"
     = Ok (CStr "2002-01-01").
Proof.
  destruct (get_iso_date_formats (mkdate 2016 5 4) "2002" "3" 2002 3)
    as (HQ & HM & HY).
  - reflexivity.
  - reflexivity.
  - unfold PyDate.MINYEAR, PyDate.MAXYEAR. lia.
  - split; [apply HQ; lia|]. split; [apply HM; lia|]. exact HY.
Defined.

(** C5.  A date string whose number does not fit a C [int] makes
    [datetime.date] raise [OverflowError], which [except ValueError] does not
    catch: the call raises instead of returning today's date. *)
Theorem get_iso_date_overflow_escapes (today : date) :
  IndicatorDataset._get_iso_date today "2000M2147483648" = Raise OverflowError
  /\ IndicatorDataset._get_iso_date today "2147483648" = Raise OverflowError.
Proof. split; reflexivity. Qed.

(** ** Arrays: transposition, enumeration and column selection *)

Module NpFacts.
Import Np Spec.

Section Lists.
Context {A : Type}.
Implicit Types (rs : list (list A)) (r : list A).

Lemma transpose_rows_length n rs :
  Forall (fun r => length r = n) rs -> length (transpose_rows n rs) = n.
Proof.
  induction 1 as [|r rs Hr _ IH]; cbn [transpose_rows].
  - apply length_replicate.
  - rewrite length_zip_with, IH, Hr. lia.
Qed.

(** Row [j] of the transpose is column [j]. *)
Lemma transpose_rows_lookup n rs j :
  Forall (fun r => length r = n) rs -> (j < n)%nat ->
  transpose_rows n rs !! j = Some (omap (fun r => r !! j) rs).
Proof.
  intros Hrs Hj. induction Hrs as [|r rs Hr _ IH]; cbn [transpose_rows omap].
  - now apply lookup_replicate_2.
  - rewrite lookup_zip_with, IH.
    destruct (lookup_lt_is_Some_2 r j) as [x Hx]; [lia|].
    cbn [omap list_omap]. now rewrite Hx.
Qed.

Lemma filter_StronglySorted (R : relation nat) (f : nat -> bool) l :
  StronglySorted R l -> StronglySorted R (List.filter f l).
Proof.
  induction 1 as [|x l Hl IH Hx]; cbn [List.filter]; [constructor|].
  destruct (f x); [|assumption].
  constructor; [assumption|].
  apply Forall_forall. intros y Hy.
  apply list_elem_of_In, filter_In in Hy as [Hy _].
  rewrite Forall_forall in Hx. now apply Hx, list_elem_of_In.
Qed.

Lemma seq_StronglySorted k n : StronglySorted lt (seq k n).
Proof.
  revert k. induction n as [|n IH]; intros k; cbn [seq]; constructor.
  - apply IH.
  - apply Forall_forall. intros y Hy.
    apply list_elem_of_In, in_seq in Hy. lia.
Qed.

(** The indices [enumerate] pairs with the elements passing a test are
    the positions whose element passes it. *)
Lemma enumerate_filter_from (P : A -> bool) (l : list A) k :
  (List.filter (fun '(i, x) => P x) (imap (fun i x => (k + i, x)%nat) l)).*1
  = List.filter (fun j => match l !! (j - k)%nat with
                          | Some x => P x
                          | None => false
                          end) (seq k (length l)).
Proof.
  revert k. induction l as [|a l IH]; intros k; [reflexivity|].
  cbn [imap length seq List.filter].
  rewrite Nat.add_0_r, Nat.sub_diag. cbn [lookup list_lookup].
  assert (imap ((fun i x => ((k + i)%nat, x)) ∘ S) l
          = imap (fun i x => ((S k + i)%nat, x)) l) as ->.
  { apply imap_ext. intros i x _. cbn. f_equal. lia. }
  assert (List.filter (fun j => match (a :: l) !! (j - k)%nat with
                                | Some x => P x
                                | None => false
                                end) (seq (S k) (length l))
          = List.filter (fun j => match l !! (j - S k)%nat with
                                  | Some x => P x
                                  | None => false
                                  end) (seq (S k) (length l))) as ->.
  { apply filter_ext_in. intros j Hj. apply in_seq in Hj.
    replace (j - k)%nat with (S (j - S k)) by lia. reflexivity. }
  destruct (P a); cbn [fmap list_fmap fst]; now rewrite IH.
Qed.

Lemma enumerate_filter (P : A -> bool) (l : list A) :
  (List.filter (fun '(i, x) => P x) (enumerate l)).*1
  = List.filter (fun j => match l !! j with
                          | Some x => P x
                          | None => false
                          end) (seq 0 (length l)).
Proof.
  unfold enumerate. pose proof (enumerate_filter_from P l 0) as H.
  cbn [Nat.add] in H. rewrite H.
  apply filter_ext. intros j. now rewrite Nat.sub_0_r.
Qed.

(** Picking in-range positions out of a row. *)
Lemma omap_lookup_length r (idx : list nat) :
  Forall (fun j => j < length r)%nat idx ->
  length (omap (fun j => r !! j) idx) = length idx.
Proof.
  induction 1 as [|j idx Hj _ IH]; [reflexivity|].
  cbn [omap list_omap]. destruct (lookup_lt_is_Some_2 r j Hj) as [x ->].
  cbn [length]. now rewrite <- IH.
Qed.

Lemma omap_lookup_lookup r (idx : list nat) k j :
  Forall (fun j => j < length r)%nat idx ->
  idx !! k = Some j ->
  omap (fun j => r !! j) idx !! k = r !! j.
Proof.
  intros Hidx. revert k. induction Hidx as [|j' idx Hj _ IH]; intros k Hk.
  - discriminate.
  - cbn [omap list_omap]. destruct (lookup_lt_is_Some_2 r j' Hj) as [x Hx].
    rewrite Hx. destruct k as [|k]; cbn in Hk |- *.
    + now inversion Hk; subst.
    + now apply IH.
Qed.

End Lists.

Lemma rectangular_Forall {A} (raw : list (list A)) :
  rectangular raw = true ->
  raw <> [] /\ Forall (fun r => length r = length (hd [] raw)) raw.
Proof.
  destruct raw as [|r rs]; [discriminate|]. cbn [rectangular hd].
  intros H. split; [discriminate|].
  constructor; [reflexivity|].
  apply Forall_forall. intros r' Hr'.
  rewrite forallb_forall in H. apply Nat.eqb_eq, H. now apply list_elem_of_In.
Qed.

Lemma Forall_rectangular {A} (r : list A) (rs : list (list A)) :
  Forall (fun r' => length r' = length r) rs -> rectangular (r :: rs) = true.
Proof.
  intros H. cbn [rectangular]. apply forallb_forall. intros r' Hr'.
  apply Nat.eqb_eq. rewrite Forall_forall in H. now apply H, list_elem_of_In.
Qed.

(** [any(col)] on column [j] of the rows [body]. *)
Lemma py_any_column (body : list (list Cell)) j :
  py_any (omap (fun r => r !! j) body) = true
  <-> exists i r c, body !! i = Some r /\ r !! j = Some c /\ truthy c = true.
Proof.
  unfold py_any. rewrite existsb_exists. split.
  - intros (c & Hc & Ht). apply list_elem_of_In, list_elem_of_omap in Hc
      as (r & Hr & Hrj).
    apply list_elem_of_lookup in Hr as [i Hi]. eauto 6.
  - intros (i & r & c & Hi & Hj & Ht). exists c. split; [|assumption].
    apply list_elem_of_In, list_elem_of_omap. exists r. split; [|assumption].
    apply list_elem_of_lookup. eauto.
Qed.

Lemma kept_columns_bound raw j :
  j ∈ kept_columns raw -> (j < length (hd [] raw))%nat.
Proof.
  unfold kept_columns. intros H.
  apply list_elem_of_In, filter_In in H as [H _]. apply in_seq in H. lia.
Qed.

Lemma kept_columns_sorted raw : StronglySorted lt (kept_columns raw).
Proof. apply filter_StronglySorted, seq_StronglySorted. Qed.

(** A column is kept exactly when it holds a true value below the header. *)
Lemma kept_columns_spec raw j :
  j ∈ kept_columns raw
  <-> (j < length (hd [] raw))%nat /\ column_has_value raw j.
Proof.
  unfold kept_columns, column_has_value, entry.
  rewrite list_elem_of_In, filter_In, in_seq, py_any_column. split.
  - intros [Hj (i & r & c & Hi & Hc & Ht)]. split; [lia|].
    exists (S i), c. rewrite lookup_drop in Hi. cbn [Nat.add] in Hi.
    rewrite Hi. cbn. auto with lia.
  - intros [Hj (i & c & Hi & Hc & Ht)]. split; [lia|].
    destruct i as [|i]; [lia|].
    destruct (raw !! S i) as [r|] eqn:Hr; [|discriminate].
    exists i, r, c. rewrite lookup_drop. cbn [Nat.add]. auto.
Qed.

(** The filter computed on the array is the one computed on the raw table. *)
Lemma column_filter_kept dt raw :
  rectangular raw = true ->
  IndicatorDataset.column_filter
    (mk_array dt (length raw) (length (hd [] raw)) raw)
  = kept_columns raw.
Proof.
  intros Hrect. apply rectangular_Forall in Hrect as [_ Hlen].
  unfold IndicatorDataset.column_filter, kept_columns, T, rows_from.
  cbn [rows shape0 shape1].
  assert (Forall (fun r => length r = length (hd [] raw)) (drop 1 raw)) as Hbody
    by now apply Forall_drop.
  rewrite enumerate_filter, transpose_rows_length by assumption.
  apply filter_ext_in. intros j Hj. apply in_seq in Hj.
  now rewrite transpose_rows_lookup by (assumption || lia).
Qed.

(** [as_np_array] on a rectangular table: no exception, and the result is
    the table cut down to the kept columns. *)
(** The array [numpy.array] builds has the rows of the table. *)
Lemma stored_length raw : length (stored raw) = length raw.
Proof. unfold stored. apply length_fmap. Qed.

Lemma stored_hd_length raw : length (hd [] (stored raw)) = length (hd [] raw).
Proof. unfold stored. destruct raw as [|r rs]; [reflexivity|]. apply length_fmap. Qed.

Lemma rectangular_fmap {A B} (f : A -> B) (raw : list (list A)) :
  rectangular (fmap (M:=list) (fmap (M:=list) f) raw) = rectangular raw.
Proof.
  destruct raw as [|r rs]; [reflexivity|].
  cbn [fmap list_fmap rectangular]. rewrite length_fmap.
  induction rs as [|r' rs IH]; [reflexivity|].
  cbn [fmap list_fmap forallb]. now rewrite length_fmap, IH.
Qed.

Lemma rectangular_stored raw : rectangular (stored raw) = rectangular raw.
Proof. apply rectangular_fmap. Qed.

Lemma stored_lookup raw i r :
  raw !! i = Some r -> stored raw !! i = Some (store (discover raw) <$> r).
Proof. intros Hr. unfold stored. now rewrite list_lookup_fmap, Hr. Qed.

Lemma stored_entry raw i j :
  entry (stored raw) i j = store (discover raw) <$> entry raw i j.
Proof.
  unfold entry, stored. rewrite list_lookup_fmap.
  destruct (raw !! i) as [r|]; [|reflexivity].
  cbn. now rewrite list_lookup_fmap.
Qed.

Lemma fmap_fmap_id {A} (f : A -> A) (l : list (list A)) :
  (forall x, f x = x) -> fmap (M:=list) (fmap (M:=list) f) l = l.
Proof.
  intros Hf. induction l as [|r l IH]; [reflexivity|].
  cbn [fmap list_fmap]. rewrite IH. f_equal.
  induction r as [|x r IHr]; [reflexivity|]. cbn. now rewrite Hf, IHr.
Qed.

(** An array of objects holds the cells of the table themselves. *)
Lemma stored_object raw : discover raw = DObject -> stored raw = raw.
Proof. intros Hdt. unfold stored. rewrite Hdt. now apply fmap_fmap_id. Qed.

(** Promotion never leaves the dtype of objects. *)
Lemma promote_types_object_r a : promote_types a DObject = DObject.
Proof. now destruct a. Qed.

Lemma promote_object (cells : list Cell) :
  foldl (fun dt c' => promote_types dt (dtype_of_cell c')) DObject cells
  = DObject.
Proof. induction cells as [|c cells IH]; [reflexivity|exact IH]. Qed.

Lemma promote_has_object (cells : list Cell) c dt :
  c ∈ cells -> dtype_of_cell c = DObject ->
  foldl (fun dt c' => promote_types dt (dtype_of_cell c')) dt cells = DObject.
Proof.
  intros Hc Hobj. revert dt.
  induction Hc as [c cells|c c' cells _ IH]; intros dt; cbn [foldl].
  - rewrite Hobj, promote_types_object_r. apply promote_object.
  - apply IH, Hobj.
Qed.

Lemma object_table_discover raw : object_table raw -> discover raw = DObject.
Proof.
  intros (r & c & Hr & Hc & Hobj). unfold discover.
  assert (c ∈ concat raw) as Hin.
  { apply list_elem_of_In, in_concat. exists r. split; now apply list_elem_of_In. }
  assert (dtype_of_cell c = DObject) as Hdt
    by (destruct Hobj as [-> | [d ->]]; reflexivity).
  destruct (concat raw) as [|c0 cells]; [now apply elem_of_nil in Hin|].
  apply elem_of_cons in Hin as [<- | Hin].
  - rewrite Hdt. apply promote_object.
  - now apply promote_has_object with c.
Qed.

Lemma filter_columns_rectangular raw :
  rectangular raw = true ->
  IndicatorDataset.filter_columns raw
  = Ok (mk_array (discover raw) (length raw)
          (length (kept_columns (stored raw)))
          ((fun r => omap (fun j => r !! j) (kept_columns (stored raw)))
           <$> stored raw)).
Proof.
  intros Hrect. unfold IndicatorDataset.filter_columns, np_array.
  rewrite Hrect. cbn [two_axes mbind result_bind].
  rewrite <- stored_length, <- stored_hd_length.
  rewrite <- rectangular_stored in Hrect.
  rewrite column_filter_kept by assumption.
  unfold take_columns. cbn [dtype shape0 shape1 rows].
  assert (forallb (fun j => j <? length (hd [] (stored raw)))%nat
            (kept_columns (stored raw)) = true)
    as ->; [|reflexivity].
  apply forallb_forall. intros j Hj. apply Nat.ltb_lt.
  now apply kept_columns_bound, list_elem_of_In.
Qed.

(** On a table that holds a [None] or a date the result is the table itself,
    cut down to the kept columns. *)
Lemma filter_columns_object raw :
  rectangular raw = true -> discover raw = DObject ->
  IndicatorDataset.filter_columns raw
  = Ok (mk_ndarray (length raw) (length (kept_columns raw))
          ((fun r => omap (fun j => r !! j) (kept_columns raw)) <$> raw)).
Proof.
  intros Hrect Hdt. rewrite (filter_columns_rectangular raw Hrect).
  now rewrite (stored_object raw Hdt), Hdt.
Qed.

Lemma filter_columns_not_rectangular raw :
  rectangular raw = false ->
  IndicatorDataset.filter_columns raw = Raise IndexError.
Proof.
  intros Hrect. unfold IndicatorDataset.filter_columns, np_array.
  now rewrite Hrect.
Qed.

Lemma kept_columns_in_row raw r :
  rectangular raw = true -> r ∈ raw ->
  Forall (fun j => j < length r)%nat (kept_columns raw).
Proof.
  intros Hrect Hr. apply rectangular_Forall in Hrect as [_ Hlen].
  rewrite Forall_forall in Hlen. rewrite (Hlen r Hr).
  apply Forall_forall. intros j. apply kept_columns_bound.
Qed.

Lemma restricted_to_kept dt raw :
  rectangular raw = true ->
  restricted_to (kept_columns raw) raw
    (mk_array dt (length raw) (length (kept_columns raw))
       ((fun r => omap (fun j => r !! j) (kept_columns raw)) <$> raw)).
Proof.
  intros Hrect. unfold restricted_to. cbn [shape0 shape1 rows].
  rewrite length_fmap. repeat split.
  intros i r Hi. eexists. rewrite list_lookup_fmap, Hi. split; [reflexivity|].
  assert (Forall (fun j => j < length r)%nat (kept_columns raw)) as Hidx.
  { apply kept_columns_in_row; [assumption|]. apply list_elem_of_lookup. eauto. }
  split; [now apply omap_lookup_length|].
  intros k j Hk. now apply omap_lookup_lookup.
Qed.

Lemma well_formed_kept dt raw :
  rectangular raw = true ->
  well_formed
    (mk_array dt (length raw) (length (kept_columns raw))
       ((fun r => omap (fun j => r !! j) (kept_columns raw)) <$> raw)).
Proof.
  intros Hrect. split; cbn [shape0 shape1 rows]; [apply length_fmap|].
  apply Forall_fmap, Forall_forall. intros r Hr. cbn.
  apply omap_lookup_length. now apply kept_columns_in_row.
Qed.

(** A successful [as_np_array] had a rectangular table to work on. *)
Lemma filter_columns_Ok raw data :
  IndicatorDataset.filter_columns raw = Ok data ->
  rectangular raw = true
  /\ data = mk_array (discover raw) (length raw)
              (length (kept_columns (stored raw)))
              ((fun r => omap (fun j => r !! j) (kept_columns (stored raw)))
               <$> stored raw).
Proof.
  intros H. destruct (rectangular raw) eqn:Hrect.
  - rewrite filter_columns_rectangular in H by assumption.
    now inversion H.
  - now rewrite filter_columns_not_rectangular in H.
Qed.

(** The width of a text array holds every string of the table. *)
Lemma fits_int64_true z : - 2 ^ 63 <= z < 2 ^ 63 -> fits_int64 z = true.
Proof.
  intros Hz. unfold fits_int64.
  apply andb_true_intro. split; [apply Z.leb_le|apply Z.ltb_lt]; lia.
Qed.

Lemma promote_text_from_str (cells : list Cell) :
  Forall text_cell cells ->
  forall w, exists w',
    foldl (fun dt c' => promote_types dt (dtype_of_cell c')) (DStr w) cells
    = DStr w'
    /\ (w <= w')%nat
    /\ forall s, CStr s ∈ cells -> (String.length s <= w')%nat.
Proof.
  induction 1 as [|c cells Hc _ IH]; intros w; cbn [foldl].
  - exists w. split; [reflexivity|]. split; [lia|].
    intros s Hs. now apply elem_of_nil in Hs.
  - destruct Hc as [[s ->]|(z & -> & Hz)]; cbn [dtype_of_cell].
    + cbn [promote_types text_width].
      destruct (IH (Nat.max w (Nat.max 1 (String.length s))))
        as (w' & -> & Hw & Hall).
      exists w'. split; [reflexivity|]. split; [lia|].
      intros s' Hs'. apply elem_of_cons in Hs' as [Heq | Hs']; [|auto].
      injection Heq as ->. lia.
    + rewrite (fits_int64_true z Hz). cbn [promote_types text_width].
      destruct (IH (Nat.max w 21)) as (w' & -> & Hw & Hall).
      exists w'. split; [reflexivity|]. split; [lia|].
      intros s' Hs'. apply elem_of_cons in Hs' as [Heq | Hs']; [discriminate|auto].
Qed.

Lemma promote_text_from_int (cells : list Cell) :
  Forall text_cell cells -> (exists s, CStr s ∈ cells) ->
  exists w',
    foldl (fun dt c' => promote_types dt (dtype_of_cell c')) DInt64 cells
    = DStr w'
    /\ (1 <= w')%nat
    /\ forall s, CStr s ∈ cells -> (String.length s <= w')%nat.
Proof.
  induction 1 as [|c cells Hc Hcells IH]; intros [s0 Hs0]; cbn [foldl].
  - now apply elem_of_nil in Hs0.
  - destruct Hc as [[s ->]|(z & -> & Hz)]; cbn [dtype_of_cell].
    + cbn [promote_types text_width].
      destruct (promote_text_from_str cells Hcells
                  (Nat.max 21 (Nat.max 1 (String.length s))))
        as (w' & -> & Hw & Hall).
      exists w'. split; [reflexivity|]. split; [lia|].
      intros s' Hs'. apply elem_of_cons in Hs' as [Heq | Hs']; [|auto].
      injection Heq as ->. lia.
    + rewrite (fits_int64_true z Hz). cbn [promote_types].
      apply elem_of_cons in Hs0 as [Heq | Hs0]; [discriminate|].
      destruct IH as (w' & -> & Hw & Hall); [eauto|].
      exists w'. split; [reflexivity|]. split; [lia|].
      intros s' Hs'. apply elem_of_cons in Hs' as [Heq | Hs']; [discriminate|auto].
Qed.

Lemma text_table_discover raw :
  text_table raw ->
  exists w,
    discover raw = DStr w /\ (1 <= w)%nat
    /\ forall r s, r ∈ raw -> CStr s ∈ r -> (String.length s <= w)%nat.
Proof.
  intros [Hcells (r0 & s0 & Hr0 & Hs0)]. unfold discover.
  assert (forall r c, r ∈ raw -> c ∈ r -> c ∈ concat raw) as Hin.
  { intros r c Hr Hc. apply list_elem_of_In, in_concat.
    exists r. split; now apply list_elem_of_In. }
  assert (Forall text_cell (concat raw)) as Hall.
  { apply Forall_forall. intros c Hc.
    apply list_elem_of_In, in_concat in Hc as (r & Hr & Hc).
    apply list_elem_of_In in Hr, Hc. exact (Hcells r c Hr Hc). }
  assert (CStr s0 ∈ concat raw) as Hs by eauto.
  destruct (concat raw) as [|c0 cells]; [now apply elem_of_nil in Hs|].
  apply Forall_cons in Hall as [Hc0 Hall].
  destruct Hc0 as [[s ->]|(z & -> & Hz)]; cbn [dtype_of_cell].
  - destruct (promote_text_from_str cells Hall (Nat.max 1 (String.length s)))
      as (w' & -> & Hw & Hlen).
    exists w'. split; [reflexivity|]. split; [lia|].
    intros r s' Hr Hs'. specialize (Hin r (CStr s') Hr Hs').
    apply elem_of_cons in Hin as [Heq | Hin']; [|auto].
    injection Heq as ->. lia.
  - rewrite (fits_int64_true z Hz).
    apply elem_of_cons in Hs as [Heq | Hs]; [discriminate|].
    destruct (promote_text_from_int cells Hall) as (w' & -> & Hw & Hlen);
      [eauto|].
    exists w'. split; [reflexivity|]. split; [lia|].
    intros r s' Hr Hs'. specialize (Hin r (CStr s') Hr Hs').
    apply elem_of_cons in Hin as [Heq | Hin']; [discriminate|auto].
Qed.



(** What a text array holds of a string and of an integer. *)
Lemma store_text_string w s :
  (String.length s <= w)%nat -> store (DStr w) (CStr s) = CStr (PyStr.rstrip_nul s).
Proof. intros Hs. cbn. now rewrite PyStrFacts.truncate_all. Qed.

Lemma store_text_int w z :
  (1 <= w)%nat ->
  exists t, store (DStr w) (CInt z) = CStr t /\ t <> EmptyString.
Proof.
  intros Hw. destruct (PyStrFacts.str_of_int_head z) as (c & s & Hz & Hc).
  eexists. split; [reflexivity|]. cbn [py_str]. rewrite Hz.
  destruct w as [|w]; [lia|]. cbn [PyStr.truncate].
  now apply PyStrFacts.rstrip_nul_head.
Qed.

End NpFacts.

(** ** [as_np_array]: which columns survive *)

Module AsNpArrayFacts.
Import Np Spec NpFacts.

Lemma column_all_false_iff raw j :
  column_all_false raw j <-> ~ column_has_value raw j.
Proof.
  unfold column_all_false, column_has_value. split.
  - intros H (i & c & Hi & Hc & Ht). rewrite (H i c Hi Hc) in Ht. discriminate.
  - intros H i c Hi Hc. destruct (truthy c) eqn:Ht; [|reflexivity].
    exfalso. apply H. eauto.
Qed.

(** Everything the claims need to know about one call, in one place. *)
Lemma filter_columns_characterised raw :
  rectangular raw = true ->
  exists out,
    IndicatorDataset.filter_columns raw = Ok out
    /\ well_formed out
    /\ dtype out = discover raw
    /\ restricted_to (kept_columns (stored raw)) (stored raw) out.
Proof.
  intros Hrect. eexists. split; [now apply filter_columns_rectangular|].
  assert (rectangular (stored raw) = true) as Hrect'
    by now rewrite rectangular_stored.
  rewrite <- (stored_length raw).
  split; [now apply well_formed_kept|]. split; [reflexivity|].
  now apply restricted_to_kept.
Qed.

(** What the array holds of a table of text and numbers. *)
Lemma stored_text raw i j c :
  text_table raw -> entry raw i j = Some c ->
  exists t,
    entry (stored raw) i j = Some (CStr t)
    /\ (forall s, c = CStr s -> t = PyStr.rstrip_nul s)
    /\ (forall z, c = CInt z -> t <> EmptyString).
Proof.
  intros Htext Hc. destruct (text_table_discover raw Htext) as (w & Hdt & Hw & Hlen).
  rewrite stored_entry, Hc, Hdt. cbn [fmap option_fmap option_map].
  unfold entry in Hc. destruct (raw !! i) as [r|] eqn:Hr; [|discriminate].
  cbn in Hc.
  assert (r ∈ raw) as Hin by (apply list_elem_of_lookup; eauto).
  assert (c ∈ r) as Hcin by (apply list_elem_of_lookup; eauto).
  destruct Htext as [Hcells _].
  destruct (Hcells r c Hin Hcin) as [[s ->]|(z & -> & _)].
  - exists (PyStr.rstrip_nul s). rewrite store_text_string by eauto.
    split; [reflexivity|]. split; [now inversion 1 | discriminate].
  - destruct (store_text_int w z Hw) as (t & Ht & Hne). exists t.
    rewrite Ht. split; [reflexivity|]. split; [discriminate | auto].
Qed.

End AsNpArrayFacts.

(** C1 (amended).  On a rectangular raw table [as_np_array] of either class
    returns the array [numpy.array] builds from it, cut down to the columns
    [filter_]: these are in their original order, a column is among them if
    and only if one of its entries below the header row is true in the array,
    and it is dropped if and only if all of them are false there.  When the
    table holds a [None] or a date the array holds the entries themselves,
    and the false ones are [None], the empty string and zero.  When it holds
    only strings and integers that fit 64 signed bits, with a string among
    them, the array holds text: a string stands as itself (without NUL
    characters at its end) and an integer as text that is not empty, so that
    a column with a number, zero included, is kept. *)
Theorem as_np_array_drops_false_columns (raw : list (list Cell)) :
  Np.rectangular raw = true ->
  exists filter_ out,
    IndicatorDataset.filter_columns raw = Ok out
    /\ (forall ind time_series add_metadata kw,
          IndicatorDataset.as_list ind time_series add_metadata kw = raw ->
          IndicatorDataset.as_np_array ind time_series add_metadata kw = Ok out)
    /\ (forall cl kw,
          ClimateDataset.as_list cl kw = raw ->
          ClimateDataset.as_np_array cl kw = Ok out)
    /\ Spec.restricted_to filter_ (Np.stored raw) out
    /\ StronglySorted lt filter_
    /\ (forall j, (j < length (hd [] raw))%nat ->
          (j ∈ filter_ <-> Spec.column_has_value (Np.stored raw) j)
          /\ (j ∉ filter_ <-> Spec.column_all_false (Np.stored raw) j))
    /\ (Spec.object_table raw -> Np.stored raw = raw)
    /\ (Spec.text_table raw ->
        forall i j c,
          Spec.entry raw i j = Some c ->
          exists t,
            Spec.entry (Np.stored raw) i j = Some (CStr t)
            /\ (forall s, c = CStr s -> t = PyStr.rstrip_nul s)
            /\ (forall z, c = CInt z -> t <> EmptyString)).
Proof.
  intros Hrect.
  destruct (AsNpArrayFacts.filter_columns_characterised raw Hrect)
    as (out & Hout & _ & _ & Hres).
  exists (Spec.kept_columns (Np.stored raw)), out. split; [assumption|].
  split; [intros ind ts am kw <-; exact Hout|].
  split; [intros cl kw <-; exact Hout|].
  split; [assumption|].
  split; [apply NpFacts.kept_columns_sorted|].
  split; [|split].
  - intros j Hj. rewrite AsNpArrayFacts.column_all_false_iff.
    rewrite NpFacts.kept_columns_spec, NpFacts.stored_hd_length. tauto.
  - intros Hobj. now apply NpFacts.stored_object, NpFacts.object_table_discover.
  - intros Htext i j c Hc. now apply AsNpArrayFacts.stored_text.
Qed.

Lemma as_np_array_drops_false_columns_witness :
  exists filter_ out,
    IndicatorDataset.filter_columns Sample.countries_table = Ok out
    /\ Spec.restricted_to filter_ (Np.stored Sample.countries_table) out
    /\ StronglySorted lt filter_.
Proof.
  destruct (as_np_array_drops_false_columns Sample.countries_table)
    as (filter_ & out & Hout & _ & _ & Hres & Hsorted & _).
  - reflexivity.
  - exists filter_, out. auto.
Defined.

(** C1 as stated fails: the column "X" holds zeros, which are not empty
    entries, and it is dropped all the same. *)
Lemma all_zero_column_is_dropped :
  IndicatorDataset.as_np_array (Sample.indicator Sample.zero_column_table)
    true false []
  = Ok (mk_ndarray 3 2
          [ [CStr "Date"; CStr "Y"];
            [CDate (mkdate 2000 1 1); CNone];
            [CDate (mkdate 2001 1 1); CInt 5] ])
  /\ Spec.entry Sample.zero_column_table 0 1 = Some (CStr "X")
  /\ ~ Spec.column_all_empty Sample.zero_column_table 1.
Proof.
  split; [reflexivity|]. split; [reflexivity|].
  intros H. destruct (H 1%nat (CInt 0)) as [H0|H0]; [lia|reflexivity| |];
    discriminate.
Qed.

Module HeaderFacts.
Import Np Spec NpFacts.




End HeaderFacts.




(** C10.  [as_np_array] needs a non-empty rectangular list of lists: on
    such a list every column index it selects is within the width of the
    table and it returns an array; on the empty list the two-axis indexing
    raises [IndexError], and so does each of the four table builders. *)
Theorem as_np_array_needs_header_row `{Env} (raw : list (list Cell)) :
  Np.rectangular raw = true ->
  (exists out,
     IndicatorDataset.filter_columns raw = Ok out
     /\ Spec.well_formed out
     /\ Forall (fun j => j < length (hd [] raw))%nat
          (IndicatorDataset.column_filter
             (mk_array (Np.discover raw) (length raw) (length (hd [] raw))
                (Np.stored raw))))
  /\ IndicatorDataset.filter_columns [] = Raise IndexError
  /\ (forall ind,
        IndicatorDataset.as_list ind true false [] = [] ->
        IndicatorDataset._time_series_table ind = Raise IndexError)
  /\ (forall ind,
        IndicatorDataset.as_list ind false true [] = [] ->
        IndicatorDataset._country_table ind = Raise IndexError)
  /\ (forall cl kw,
        ClimateDataset.as_list cl kw = [] ->
        ClimateDataset._country_table cl kw = Raise IndexError)
  /\ (forall cl,
        ClimateDataset.as_list cl
          [("columns"%string, Py.KStrs ["country"%string; "type"%string]);
           ("use_dates"%string, Py.KBool true)] = [] ->
        ClimateDataset._time_series_table cl [] = Raise IndexError).
Proof.
  intros Hrect. split.
  - destruct (AsNpArrayFacts.filter_columns_characterised raw Hrect)
      as (out & Hout & Hwf & _).
    exists out. split; [assumption|]. split; [assumption|].
    rewrite <- NpFacts.stored_length, <- NpFacts.stored_hd_length.
    rewrite NpFacts.column_filter_kept
      by now rewrite NpFacts.rectangular_stored.
    apply Forall_forall. intros j. apply NpFacts.kept_columns_bound.
  - split; [reflexivity|].
    split; [intros ind Heq; unfold IndicatorDataset._time_series_table,
              IndicatorDataset.as_np_array; now rewrite Heq|].
    split; [intros ind Heq; unfold IndicatorDataset._country_table,
              IndicatorDataset.as_np_array; now rewrite Heq|].
    split; [intros cl kw Heq; unfold ClimateDataset._country_table,
              ClimateDataset.as_np_array; now rewrite Heq|].
    intros cl Heq. unfold ClimateDataset._time_series_table,
      ClimateDataset.as_np_array. cbn. now rewrite Heq.
Qed.

Lemma as_np_array_needs_header_row_witness :
  (exists out, IndicatorDataset.filter_columns Sample.climate_table = Ok out)
  /\ IndicatorDataset._time_series_table (H := Sample.sample_env)
       (Sample.indicator []) = Raise IndexError
  /\ ClimateDataset._time_series_table (H := Sample.sample_env)
       (Sample.climate []) [] = Raise IndexError.
Proof.
  destruct (as_np_array_needs_header_row (H := Sample.sample_env)
              Sample.climate_table)
    as ((out & Hout & _) & _ & Hts & _ & _ & Hcts).
  - reflexivity.
  - split; [now exists out|]. split.
    + apply Hts. reflexivity.
    + apply Hcts. reflexivity.
Defined.

(** ** The error monad *)

Module ResultFacts.

Lemma bind_Ok {A B} (m : result A) (k : A -> result B) (b : B) :
  m ≫= k = Ok b -> exists a, m = Ok a /\ k a = Ok b.
Proof. destruct m as [a|e]; [eauto|discriminate]. Qed.

(** A computation that can only end in [Some] table or in an exception
    never returns [None]. *)
Lemma bind_not_None {A B} (m : result A) (k : A -> result (option B)) :
  (forall a, k a <> Ok None) -> m ≫= k <> Ok None.
Proof. intros Hk. destruct m as [a|e]; [apply Hk|discriminate]. Qed.

Lemma mapM_Ok {A B} (f : A -> result B) (l : list A) (l' : list B) :
  mapM f l = Ok l' -> Forall2 (fun x y => f x = Ok y) l l'.
Proof.
  revert l'. induction l as [|x l IH]; intros l' H; cbn [mapM] in H.
  - inversion H. constructor.
  - apply bind_Ok in H as (y & Hy & H).
    apply bind_Ok in H as (ys & Hys & H). inversion H; subst.
    constructor; auto.
Qed.



Lemma mapM_total {A B} (f : A -> result B) (g : A -> B) (l : list A) :
  Forall (fun x => f x = Ok (g x)) l -> mapM f l = Ok (g <$> l).
Proof.
  induction 1 as [|x l Hx _ IH]; [reflexivity|].
  cbn [mapM]. rewrite Hx, IH. reflexivity.
Qed.

End ResultFacts.

(** ** [as_orange_table]: when there is no table *)

Module TableFacts.
Import ResultFacts.

Ltac never_None :=
  repeat first
    [ discriminate
    | apply bind_not_None; intros ?
    | progress cbv zeta ].

Lemma time_series_table_None `{Env} (self : IndicatorDataset.t) data :
  IndicatorDataset.as_np_array self true false [] = Ok data ->
  (IndicatorDataset._time_series_table self = Ok None <-> Np.any data = false).
Proof.
  intros Hdata. unfold IndicatorDataset._time_series_table.
  rewrite Hdata. cbn [mbind result_bind].
  destruct (Np.any data); cbn [negb]; split; try (reflexivity || discriminate).
  intros Hnone. exfalso. revert Hnone. never_None.
Qed.

Lemma country_table_None `{Env} (self : IndicatorDataset.t) data :
  IndicatorDataset.as_np_array self false true [] = Ok data ->
  (IndicatorDataset._country_table self = Ok None <-> Np.any data = false).
Proof.
  intros Hdata. unfold IndicatorDataset._country_table.
  rewrite Hdata. cbn [mbind result_bind].
  destruct (Np.any data); cbn [negb]; split; try (reflexivity || discriminate).
  intros Hnone. exfalso. revert Hnone. never_None.
Qed.

End TableFacts.

(** C8 (amended).  Once [as_np_array] has returned the column-filtered
    array, [as_orange_table] returns [None] if and only if that array holds
    no true element, in the time-series branch and in the country branch
    alike; with a true element present it never returns [None]: it returns a
    table or it raises. *)
Theorem as_orange_table_None_iff `{Env} (self : IndicatorDataset.t)
    (time_series : bool) (data : ndarray Cell) :
  IndicatorDataset.as_np_array self time_series (negb time_series) [] = Ok data ->
  (IndicatorDataset.as_orange_table self time_series = Ok None
   <-> Np.any data = false)
  /\ (Np.any data = true ->
      (exists table, IndicatorDataset.as_orange_table self time_series
                     = Ok (Some table))
      \/ (exists e, IndicatorDataset.as_orange_table self time_series = Raise e)).
Proof.
  intros Hdata.
  assert (IndicatorDataset.as_orange_table self time_series = Ok None
          <-> Np.any data = false) as Hiff.
  { unfold IndicatorDataset.as_orange_table. destruct time_series.
    - now apply TableFacts.time_series_table_None.
    - now apply TableFacts.country_table_None. }
  split; [exact Hiff|]. intros Hany.
  destruct (IndicatorDataset.as_orange_table self time_series) as [[table|]|e];
    [left; eauto | | right; eauto].
  destruct Hiff as [Hiff _]. rewrite Hiff in Hany by reflexivity. discriminate.
Qed.

Lemma as_orange_table_None_iff_witness :
  IndicatorDataset.as_orange_table (H := Sample.sample_env)
    (Sample.indicator [[CStr "Date"; CStr "SVN"]; [CNone; CInt 0]]) true
  = Ok None.
Proof.
  apply (as_orange_table_None_iff (H := Sample.sample_env)
           (Sample.indicator [[CStr "Date"; CStr "SVN"]; [CNone; CInt 0]]) true
           (mk_ndarray 2 0 [[]; []])).
  - reflexivity.
  - reflexivity.
Defined.

(** C8 as stated fails: a true element is present and no table comes back.
    The first column holds the ISO strings [_get_iso_date] itself produces
    for plain years, and a string has no [timetuple]. *)
Lemma iso_string_dates_raise :
  IndicatorDataset.as_np_array (Sample.indicator Sample.iso_string_table)
    true false []
  = Ok (mk_ndarray 3 2 Sample.iso_string_table)
  /\ Np.any (mk_ndarray 3 2 Sample.iso_string_table) = true
  /\ IndicatorDataset.as_orange_table (H := Sample.sample_env)
       (Sample.indicator Sample.iso_string_table) true
     = Raise AttributeError.
Proof. repeat split. Qed.

(** ** [sorted]: a stable sort *)

Module SortedFacts.
Import Py Spec.




Section Key.
Variable key : Cell -> Cell.














End Key.




Section Pairwise.
Variable key : Cell -> Cell.




End Pairwise.



End SortedFacts.

(** ** Dictionaries built from an enumeration *)

Module DictFacts.
Import Py.




Lemma dict_getitem_from (s : list Cell) n k v :
  NoDup s -> s !! k = Some v ->
  dict_getitem v (imap (fun i r => (r, (n + i)%nat)) s) = Ok (n + k)%nat.
Proof.
  revert n k. induction s as [|a s IH]; intros n k Hnd Hk; [discriminate|].
  apply NoDup_cons in Hnd as [Ha Hnd]. cbn [imap dict_getitem].
  destruct k as [|k]; cbn in Hk.
  - inversion Hk; subst. now rewrite decide_True.
  - rewrite decide_False.
    + assert (imap ((fun i r => (r, (n + i)%nat)) ∘ S) s
              = imap (fun i r => (r, (S n + i)%nat)) s) as ->.
      { apply imap_ext. intros i r _. cbn. f_equal. lia. }
      rewrite (IH (S n) k Hnd Hk). f_equal. lia.
    + intros ->. apply Ha. apply list_elem_of_lookup. eauto.
Qed.

(** [d[v]] is the position of [v]. *)
Lemma dict_getitem_enumerate (s : list Cell) k v :
  NoDup s -> s !! k = Some v ->
  dict_getitem v (imap (fun i r => (r, i)) s) = Ok k.
Proof. intros Hnd Hk. exact (dict_getitem_from s 0 k v Hnd Hk). Qed.

End DictFacts.

(** ** [IndicatorDataset._country_table], step by step *)

Module CountryTableFacts.
Import Py Orange Spec ResultFacts SortedFacts DictFacts IndicatorDataset.



Section WithEnv.
Context `{Env}.








End WithEnv.

End CountryTableFacts.

Module CountryRowFacts.
Import Py Orange Spec ResultFacts IndicatorDataset CountryTableFacts.

Section WithEnv.
Context `{Env}.





End WithEnv.

End CountryRowFacts.

Module EncodingFacts.
Import Py Orange Spec ResultFacts SortedFacts DictFacts IndicatorDataset
  CountryTableFacts.

Section WithEnv.
Context `{Env}.




End WithEnv.

End EncodingFacts.






(** ** [ClimateDataset._country_table] *)

Module ClimateFacts.
Import Py Orange Spec ResultFacts NpFacts ClimateDataset.

Lemma filter_columns_well_formed raw data :
  IndicatorDataset.filter_columns raw = Ok data -> well_formed data.
Proof.
  intros Hdata. apply filter_columns_Ok in Hdata as [Hrect ->].
  rewrite <- (stored_length raw).
  apply well_formed_kept. now rewrite rectangular_stored.
Qed.



Section WithEnv.
Context `{Env}.

(** The loop body on a row that has its first entry. *)
Lemma normalize_row_cons (v : Obj) (r : list Obj) :
  normalize_row (v :: r) = Ok (alpha3_get v :: r).
Proof. reflexivity. Qed.

Lemma normalize_item_cons dt (v : Cell) (r : list Cell) :
  normalize_item dt (v :: r) = Ok (Np.store dt (alpha3_get_item v) :: r).
Proof. reflexivity. Qed.

(** [alpha3_map.get(v, v)]: the mapped name for a key of the map, the entry
    itself otherwise. *)
Lemma alpha3_get_spec (c : Cell) :
  (forall code name,
     c = CStr code -> get_alpha3_map !! code = Some name ->
     alpha3_get (OCell c) = OCell (CStr name))
  /\ ((forall code, c = CStr code -> get_alpha3_map !! code = None) ->
      alpha3_get (OCell c) = OCell c).
Proof.
  split.
  - intros code name -> Hname. cbn. now rewrite Hname.
  - intros Hnone. destruct c as [|code| |]; try reflexivity.
    cbn. now rewrite (Hnone code eq_refl).
Qed.


End WithEnv.

End ClimateFacts.




(** ** The store: what a call leaves untouched *)

Module StoreFacts.
Import Py Orange Store.

Section WithEnv.
Context `{Env}.

Lemma unchanged_refl (h : heap) : unchanged h h.
Proof. intros l o Hl. exact Hl. Qed.

Lemma unchanged_insert_fresh (h0 h : heap) (l : loc) (o : hobj) :
  unchanged h0 h -> h0 !! l = None -> unchanged h0 (<[l:=o]> h).
Proof.
  unfold unchanged, heap, loc in *. intros Hh Hl l' o' Hl'.
  rewrite lookup_insert_ne; [now apply Hh|].
  intros ->. congruence.
Qed.

Lemma safe_ret {A} (h0 : heap) (a : A) (Q : A -> Prop) :
  Q a -> safe h0 (ret a) Q.
Proof.
  intros Ha h Hh. split; [exact Hh|]. cbn. intros a' Heq.
  now inversion Heq; subst.
Qed.

Lemma safe_bind {A B} (h0 : heap) (c : M A) (k : A -> M B)
    (Q : A -> Prop) (R : B -> Prop) :
  safe h0 c Q -> (forall a, Q a -> safe h0 (k a) R) -> safe h0 (bind c k) R.
Proof.
  intros Hc Hk h Hh. unfold bind. specialize (Hc h Hh).
  destruct (c h) as [[a|e] h']; cbn in Hc; destruct Hc as [Hh' Hq].
  - apply (Hk a (Hq a eq_refl) h' Hh').
  - split; [exact Hh'|]. cbn. discriminate.
Qed.

Lemma safe_weaken {A} (h0 : heap) (c : M A) (Q R : A -> Prop) :
  safe h0 c Q -> (forall a, Q a -> R a) -> safe h0 c R.
Proof.
  intros Hc HQR h Hh. destruct (Hc h Hh) as [Hh' Hq].
  split; [exact Hh'|]. intros a Ha. apply HQR, Hq, Ha.
Qed.

Lemma safe_lift {A} (h0 : heap) (r : result A) : safe h0 (lift r) (fun _ => True).
Proof. intros h Hh. split; [exact Hh|]. auto. Qed.

(** A new object lives where nothing was. *)
Lemma safe_alloc (h0 : heap) (o : hobj) :
  safe h0 (alloc o) (fun l => h0 !! l = None).
Proof.
  intros h Hh. unfold alloc. cbn.
  assert (h0 !! fresh (dom h) = None) as Hfresh.
  { destruct (h0 !! fresh (dom h)) as [o'|] eqn:Hl; [|reflexivity].
    exfalso. pose proof (is_fresh (dom h)) as Hnew. apply Hnew.
    apply (elem_of_dom_2 h _ o'). now apply Hh. }
  split; [now apply unchanged_insert_fresh|].
  intros a Ha. now inversion Ha; subst.
Qed.

Lemma safe_read_list (h0 : heap) (l : loc) :
  safe h0 (read_list l) (fun _ => True).
Proof.
  intros h Hh. unfold read_list.
  destruct (h !! l) as [[raw|n|a|a]|]; cbn; auto.
Qed.

Section Arrays.
Context {A : Type}.
Variable get : hobj -> option (ndarray A).
Variable put : ndarray A -> hobj.

Lemma safe_read_array (h0 : heap) (l : loc) :
  safe h0 (read_array get l) (fun _ => True).
Proof.
  intros h Hh. unfold read_array.
  destruct (h !! l ≫= get); cbn; auto.
Qed.

Lemma safe_read_view (h0 : heap) (v : view) :
  safe h0 (read_view get v) (fun _ => True).
Proof.
  unfold read_view. eapply safe_bind; [apply safe_read_array|].
  intros a _. now apply safe_ret.
Qed.

Lemma safe_getitem_view (h0 : heap) (v : view) (i j : nat) :
  safe h0 (getitem_view get v i j) (fun _ => True).
Proof.
  unfold getitem_view. eapply safe_bind; [apply safe_read_view|].
  intros w _. apply safe_lift.
Qed.

(** Writing to an array that did not exist before disturbs nothing that did. *)
Lemma safe_write_array (h0 : heap) (l : loc) (a : ndarray A) :
  h0 !! l = None -> safe h0 (write_array put l a) (fun _ => True).
Proof.
  intros Hl h Hh. unfold write_array. cbn.
  split; [now apply unchanged_insert_fresh|auto].
Qed.

Lemma safe_setitem_view (h0 : heap) (v : view) (i j : nat) (x : A) :
  fresh_view h0 v -> safe h0 (setitem_view get put v i j x) (fun _ => True).
Proof.
  intros Hv. unfold setitem_view. eapply safe_bind; [apply safe_read_array|].
  intros a _. cbv zeta.
  destruct ((i <? shape0 (window v a))%nat && (j <? shape1 (window v a))%nat).
  - now apply safe_write_array.
  - apply safe_lift.
Qed.

End Arrays.

Lemma safe_for_each {B} (h0 : heap) (l : list B) (body : B -> M unit) :
  (forall x, safe h0 (body x) (fun _ => True)) ->
  safe h0 (for_each l body) (fun _ => True).
Proof.
  intros Hbody. induction l as [|x l IH]; cbn [for_each].
  - now apply safe_ret.
  - eapply safe_bind; [apply Hbody|]. intros _ _. exact IH.
Qed.

End WithEnv.

End StoreFacts.

Module FrameFacts.
Import Py Orange Store StoreFacts.

(** One rule at a time, through the structure of a method. *)
Ltac safe_atom :=
  first
    [ apply safe_lift
    | apply safe_alloc
    | apply safe_read_list
    | apply safe_read_array
    | apply safe_read_view
    | apply safe_getitem_view
    | apply safe_setitem_view;
      unfold fresh_view in *; cbn [base v_rows_from v_cols_from v_cols_upto whole];
      assumption ].

Ltac safe_walk :=
  repeat
    (unfold mbind, M_bind, mret, M_ret;
     cbv zeta;
     lazymatch goal with
     | |- safe _ (bind _ _) _ => eapply safe_bind; [safe_atom | intros ? ?]
     | |- safe _ (ret _) _ => apply safe_ret
     | |- safe _ (if ?b then _ else _) _ => destruct b
     | |- safe _ (match ?x with _ => _ end) _ => destruct x
     | _ => fail
     end).

Section WithEnv.
Context `{Env}.

(** [as_np_array] writes to nothing that was there, and what it returns is a
    view on an array of its own. *)
Lemma safe_filter_columns (h0 : heap) (l : loc) :
  safe h0 (filter_columns l) (fresh_view h0).
Proof.
  unfold filter_columns. eapply safe_bind; [apply safe_read_list|].
  intros raw _. destruct (Np.np_array raw) as [n|a]; safe_walk; assumption.
Qed.

Lemma safe_encode_row (h0 : heap) regions admin_regions income_level
    lending_type (v : view) (i : nat) :
  fresh_view h0 v ->
  safe h0 (encode_row regions admin_regions income_level lending_type v i)
    (fun _ => True).
Proof. intros Hv. unfold encode_row. safe_walk. safe_atom. Qed.

Lemma safe_float_row (h0 : heap) (v : view) (i : nat) :
  fresh_view h0 v -> safe h0 (float_row v i) (fun _ => True).
Proof. intros Hv. unfold float_row. safe_walk. safe_atom. Qed.

Lemma safe_np_where (h0 : heap) (f : Obj -> Obj) (a : ndarray Obj) :
  safe h0 (np_where f a) (fresh_view h0).
Proof. unfold np_where. safe_walk. assumption. Qed.

Lemma safe_normalize_row (h0 : heap) (v : view) (i : nat) :
  fresh_view h0 v -> safe h0 (normalize_row v i) (fun _ => True).
Proof.
  intros Hv. unfold normalize_row. safe_walk. safe_atom.
Qed.

End WithEnv.

End FrameFacts.

Module TableFrameFacts.
Import Py Orange Store StoreFacts FrameFacts.

Ltac safe_call :=
  first
    [ safe_atom
    | apply safe_filter_columns
    | apply safe_np_where
    | apply safe_for_each; intros ?;
      first [ apply safe_encode_row | apply safe_float_row
            | apply safe_normalize_row ];
      unfold fresh_view in *;
      cbn [base v_rows_from v_cols_from v_cols_upto whole]; assumption ].

Ltac safe_run :=
  repeat
    (unfold mbind, M_bind, mret, M_ret;
     cbv zeta;
     lazymatch goal with
     | |- safe _ (bind _ _) _ => eapply safe_bind; [safe_call | intros ? ?]
     | |- safe _ (ret _) _ => apply safe_ret; exact I
     | |- safe _ (if ?b then _ else _) _ => destruct b
     | _ => fail
     end).

Section WithEnv.
Context `{Env}.

Lemma safe_time_series_table (h0 : heap) (self : IndicatorObject) :
  safe h0 (_time_series_table self) (fun _ => True).
Proof. unfold _time_series_table, as_np_array. safe_run. Qed.

Lemma safe_country_table (h0 : heap) (self : IndicatorObject) :
  safe h0 (_country_table self) (fun _ => True).
Proof. unfold _country_table, as_np_array. safe_run. Qed.

Lemma safe_climate_country_table (h0 : heap) (self : ClimateObject) kw :
  safe h0 (climate_country_table self kw) (fun _ => True).
Proof. unfold climate_country_table, climate_as_np_array. safe_run. Qed.

Lemma safe_climate_time_series_table (h0 : heap) (self : ClimateObject) kw :
  safe h0 (climate_time_series_table self kw) (fun _ => True).
Proof. unfold climate_time_series_table, climate_as_np_array. safe_run. Qed.

End WithEnv.

End TableFrameFacts.

(** C7.  Whatever the store holds when [as_np_array] or [as_orange_table]
    of either class is called, with any flags, it still holds afterwards,
    whether the call returns or raises: the raw lists of the client and every
    other object are as they were.  The entries written in place by
    [_country_table] land in arrays created during the call. *)
Theorem calls_leave_the_store_unchanged `{Env} (h : Store.heap)
    (ind : Store.IndicatorObject) (cl : Store.ClimateObject) :
  (forall time_series add_metadata kw,
     Store.unchanged h (Store.as_np_array ind time_series add_metadata kw h).2)
  /\ (forall time_series,
        Store.unchanged h (Store.as_orange_table ind time_series h).2)
  /\ (forall kw, Store.unchanged h (Store.climate_as_np_array cl kw h).2)
  /\ (forall time_series kw,
        Store.unchanged h (Store.climate_as_orange_table cl time_series kw h).2).
Proof.
  pose proof (StoreFacts.unchanged_refl h) as Hh.
  split; [|split; [|split]].
  - intros ts am kw. exact (proj1 (FrameFacts.safe_filter_columns h _ h Hh)).
  - intros [|].
    + exact (proj1 (TableFrameFacts.safe_time_series_table h ind h Hh)).
    + exact (proj1 (TableFrameFacts.safe_country_table h ind h Hh)).
  - intros kw. exact (proj1 (FrameFacts.safe_filter_columns h _ h Hh)).
  - intros [|] kw.
    + exact (proj1 (TableFrameFacts.safe_climate_time_series_table h cl kw h Hh)).
    + exact (proj1 (TableFrameFacts.safe_climate_country_table h cl kw h Hh)).
Qed.

(** ** [_get_iso_date]: what can come out of it *)

Module IsoDateFacts.
Import PyStr PyStrFacts PyDate PyDateFacts Spec IndicatorDataset.

Lemma raises_only_bind {A B} (P : exn -> Prop) (m : result A)
    (k : A -> result B) :
  raises_only P m -> (forall a, raises_only P (k a)) ->
  raises_only P (m ≫= k).
Proof.
  intros Hm Hk e. destruct m as [a|e']; cbn.
  - apply Hk.
  - intros Heq. apply Hm. now inversion Heq.
Qed.

Lemma raises_only_Ok {A} (P : exn -> Prop) (a : A) : raises_only P (Ok a).
Proof. intros e. discriminate. Qed.

Lemma raises_only_weaken {A} (P Q : exn -> Prop) (m : result A) :
  raises_only P m -> (forall e, P e -> Q e) -> raises_only Q m.
Proof. intros Hm HPQ e He. apply HPQ, Hm, He. Qed.

(** [int()] raises nothing but [ValueError]. *)
Lemma py_int_raises s : raises_only (fun e => e = ValueError) (py_int s).
Proof.
  intros e. unfold py_int.
  destruct (scan_sign (skip_spaces s)) as [neg body].
  destruct (starts_with_underscore body); [now inversion 1|].
  destruct (scan_digits body false 0 0) as [[[v d] rest]|]; [|now inversion 1].
  repeat match goal with
         | |- context [if ?b then _ else _] => destruct b
         end; now inversion 1.
Qed.

Lemma unpack2_raises parts : raises_only (fun e => e = ValueError) (unpack2 parts).
Proof.
  intros e. destruct parts as [|a [|b [|c parts]]]; cbn; now inversion 1.
Qed.

Lemma datetime_date_raises y m d :
  raises_only (fun e => e = ValueError \/ e = OverflowError) (datetime_date y m d).
Proof.
  intros e. unfold datetime_date.
  repeat match goal with
         | |- context [if ?b then _ else _] => destruct b
         end; inversion 1; auto.
Qed.

(** A date that [datetime.date] builds lies in the calendar. *)
Lemma datetime_date_Ok y m d dt :
  datetime_date y m d = Ok dt ->
  dt = mkdate y m d
  /\ MINYEAR <= y <= MAXYEAR /\ 1 <= m <= 12 /\ 1 <= d <= days_in_month y m.
Proof.
  unfold datetime_date.
  destruct (negb _); [discriminate|].
  destruct (_ && _) eqn:Hrange; [|discriminate].
  inversion 1. split; [reflexivity|].
  repeat (apply andb_prop in Hrange as [Hrange ?]).
  repeat match goal with
         | Hle : (_ <=? _) = true |- _ => apply Z.leb_le in Hle
         end.
  lia.
Qed.

Lemma except_ValueError_raises {A} (m : result A) (a : A) :
  raises_only (fun e => e = ValueError \/ e = OverflowError) m ->
  raises_only (fun e => e = OverflowError) (except_ValueError m (Ok a)).
Proof.
  intros Hm e. destruct m as [x|[]]; cbn; try discriminate;
    intros Heq; inversion Heq; subst;
    destruct (Hm _ eq_refl); congruence.
Qed.

End IsoDateFacts.

(** X2.  Whatever the string, [_get_iso_date] ends in one of three ways: a
    date on the first day of a month of a year between 1 and 9999, a string
    (the ISO form of a New Year's day, or of today), or [OverflowError]; no
    other exception escapes it. *)
Theorem get_iso_date_outcomes (today : date) (date_str : string) :
  (exists d,
     IndicatorDataset._get_iso_date today date_str = Ok (CDate d)
     /\ PyDate.MINYEAR <= year d <= PyDate.MAXYEAR
     /\ 1 <= month d <= 12 /\ day d = 1)
  \/ (exists iso, IndicatorDataset._get_iso_date today date_str = Ok (CStr iso))
  \/ IndicatorDataset._get_iso_date today date_str = Raise OverflowError.
Proof.
  unfold IndicatorDataset._get_iso_date.
  assert (forall y m,
            (exists d, (PyDate.datetime_date y m 1 ≫= fun d => Ok (CDate d))
                       = Ok (CDate d)
                       /\ PyDate.MINYEAR <= year d <= PyDate.MAXYEAR
                       /\ 1 <= month d <= 12 /\ day d = 1)
            \/ (PyDate.datetime_date y m 1 ≫= fun d => Ok (CDate d))
               = Raise ValueError
            \/ (PyDate.datetime_date y m 1 ≫= fun d => Ok (CDate d))
               = Raise OverflowError) as Hdate.
  { intros y m. destruct (PyDate.datetime_date y m 1) as [d|e] eqn:Hd; cbn.
    - left. exists d. split; [reflexivity|].
      apply IsoDateFacts.datetime_date_Ok in Hd as (-> & Hy & Hm & _). cbn. lia.
    - right. destruct (IsoDateFacts.datetime_date_raises _ _ _ _ Hd) as [->| ->];
        auto. }
  destruct (PyStr.contains "Q" date_str).
  - destruct (PyStr.unpack2 (PyStr.split "Q" date_str)) as [[a b]|e] eqn:Hu; cbn.
    + destruct (PyStr.py_int a) as [y|e] eqn:Hy; cbn.
      * destruct (PyStr.py_int b) as [q|e] eqn:Hq; cbn.
        -- destruct (Hdate y (q * 3 - 2)) as [(d & -> & Hd)|[-> | ->]]; cbn; eauto.
        -- rewrite (IsoDateFacts.py_int_raises _ _ Hq). cbn. eauto.
      * rewrite (IsoDateFacts.py_int_raises _ _ Hy). cbn. eauto.
    + rewrite (IsoDateFacts.unpack2_raises _ _ Hu). cbn. eauto.
  - destruct (PyStr.contains "M" date_str).
    + destruct (PyStr.unpack2 (PyStr.split "M" date_str)) as [[a b]|e] eqn:Hu; cbn.
      * destruct (PyStr.py_int a) as [y|e] eqn:Hy; cbn.
        -- destruct (PyStr.py_int b) as [q|e] eqn:Hq; cbn.
           ++ destruct (Hdate y q) as [(d & -> & Hd)|[-> | ->]]; cbn; eauto.
           ++ rewrite (IsoDateFacts.py_int_raises _ _ Hq). cbn. eauto.
        -- rewrite (IsoDateFacts.py_int_raises _ _ Hy). cbn. eauto.
      * rewrite (IsoDateFacts.unpack2_raises _ _ Hu). cbn. eauto.
    + destruct (PyStr.py_int date_str) as [y|e] eqn:Hy; cbn.
      * destruct (PyDate.datetime_date y 1 1) as [d|e] eqn:Hd; cbn; [eauto|].
        destruct (IsoDateFacts.datetime_date_raises _ _ _ _ Hd) as [->| ->];
          cbn; eauto.
      * rewrite (IsoDateFacts.py_int_raises _ _ Hy). cbn. eauto.
Qed.

Module FallbackFacts.
Import PyStr PyStrFacts PyDate PyDateFacts Spec IndicatorDataset.

Lemma split_nonempty c s : (1 <= length (split c s))%nat.
Proof.
  induction s as [|a s IH]; cbn [split]; [cbn; lia|].
  destruct (Ascii.eqb a c); [cbn; lia|].
  destruct (split c s); cbn in *; lia.
Qed.

Lemma split_cons_length c a s :
  Ascii.eqb a c = false -> length (split c (String a s)) = length (split c s).
Proof.
  intros Ha. cbn [split]. rewrite Ha.
  pose proof (split_nonempty c s). destruct (split c s); cbn in *; lia.
Qed.

(** Each separator adds a part. *)
Lemma split_app_length c a b :
  length (split c (a +:+ String c b))
  = (length (split c a) + length (split c b))%nat.
Proof.
  induction a as [|x a IH].
  - change (EmptyString +:+ String c b) with (String c b).
    cbn [split length]. now rewrite Ascii.eqb_refl.
  - change (String x a +:+ String c b) with (String x (a +:+ String c b)).
    destruct (Ascii.eqb x c) eqn:Hx.
    + cbn [split]. rewrite Hx. cbn [length]. now rewrite IH.
    + now rewrite !split_cons_length, IH by assumption.
Qed.

Lemma unpack2_length parts :
  length parts <> 2%nat -> unpack2 parts = Raise ValueError.
Proof. destruct parts as [|a [|b [|c parts]]]; cbn; congruence. Qed.

(** Two separators, whatever stands between them: nothing to unpack. *)
Lemma unpack2_two_separators c a b d :
  unpack2 (split c (a +:+ String c (b +:+ String c d))) = Raise ValueError.
Proof.
  apply unpack2_length. rewrite !split_app_length.
  pose proof (split_nonempty c a). pose proof (split_nonempty c b).
  pose proof (split_nonempty c d). lia.
Qed.


End FallbackFacts.

(** X3.  Strings that cannot be read come back as today's date in ISO form:
    a string without "Q" or "M" that [int] rejects, a string with two "Q"
    (or, without any "Q", two "M") separators, and a string whose year or
    number part [int] rejects. *)
Theorem get_iso_date_unreadable_is_today (today : date) :
  (forall s e,
     PyStr.contains "Q" s = false -> PyStr.contains "M" s = false ->
     PyStr.py_int s = Raise e ->
     IndicatorDataset._get_iso_date today s = Ok (CStr (PyDate.isoformat today)))
  /\ (forall a b c,
        IndicatorDataset._get_iso_date today (a +:+ "Q" +:+ b +:+ "Q" +:+ c)
        = Ok (CStr (PyDate.isoformat today)))
  /\ (forall a b c,
        PyStr.contains "Q" (a +:+ "M" +:+ b +:+ "M" +:+ c) = false ->
        IndicatorDataset._get_iso_date today (a +:+ "M" +:+ b +:+ "M" +:+ c)
        = Ok (CStr (PyDate.isoformat today)))
  /\ (forall a b e,
        PyStr.contains "Q" a = false -> PyStr.contains "Q" b = false ->
        PyStr.py_int a = Raise e \/ PyStr.py_int b = Raise e ->
        IndicatorDataset._get_iso_date today (a +:+ "Q" +:+ b)
        = Ok (CStr (PyDate.isoformat today))).
Proof.
  split; [|split; [|split]].
  - intros s e HQ HM Hs. unfold IndicatorDataset._get_iso_date.
    rewrite HQ, HM, Hs. cbn. now rewrite (IsoDateFacts.py_int_raises _ _ Hs).
  - intros a b c. unfold IndicatorDataset._get_iso_date.
    change (a +:+ "Q" +:+ b +:+ "Q" +:+ c)
      with (a +:+ String "Q" (b +:+ String "Q" c)).
    rewrite GetIsoDateFacts.contains_sep, FallbackFacts.unpack2_two_separators.
    reflexivity.
  - intros a b c HQ. unfold IndicatorDataset._get_iso_date. rewrite HQ.
    change (a +:+ "M" +:+ b +:+ "M" +:+ c)
      with (a +:+ String "M" (b +:+ String "M" c)).
    rewrite GetIsoDateFacts.contains_sep, FallbackFacts.unpack2_two_separators.
    reflexivity.
  - intros a b e Ha Hb Hbad. unfold IndicatorDataset._get_iso_date.
    change (a +:+ "Q" +:+ b) with (a +:+ String "Q" b).
    rewrite GetIsoDateFacts.contains_sep, PyStrFacts.split_two by assumption.
    cbn [PyStr.unpack2 mbind result_bind].
    destruct (PyStr.py_int a) as [y|e'] eqn:Hy; cbn.
    + destruct Hbad as [Hbad|Hbad]; [discriminate|].
      rewrite Hbad. cbn. now rewrite (IsoDateFacts.py_int_raises _ _ Hbad).
    + now rewrite (IsoDateFacts.py_int_raises _ _ Hy).
Qed.

Lemma get_iso_date_unreadable_is_today_witness :
  IndicatorDataset._get_iso_date (mkdate 2016 5 4) "Last Known Value"
  = Ok (CStr "2016-05-04")
  /\ IndicatorDataset._get_iso_date (mkdate 2016 5 4) "1988-2000"
     = Ok (CStr "2016-05-04")
  /\ IndicatorDataset._get_iso_date (mkdate 2016 5 4) "2000Q1Q2"
     = Ok (CStr "2016-05-04")
  /\ IndicatorDataset._get_iso_date (mkdate 2016 5 4) "2000M1M2"
     = Ok (CStr "2016-05-04")
  /\ IndicatorDataset._get_iso_date (mkdate 2016 5 4) "2000Qx"
     = Ok (CStr "2016-05-04").
Proof.
  destruct (get_iso_date_unreadable_is_today (mkdate 2016 5 4))
    as (Hplain & HQQ & HMM & Hpart).
  split; [apply (Hplain "Last Known Value"%string ValueError); reflexivity|].
  split; [apply (Hplain "1988-2000"%string ValueError); reflexivity|].
  split; [exact (HQQ "2000"%string "1"%string "2"%string)|].
  split; [apply (HMM "2000"%string "1"%string "2"%string); reflexivity|].
  apply (Hpart "2000"%string "x"%string ValueError); try reflexivity.
  right. reflexivity.
Defined.



(** ** [as_np_array] on its own result, and the empty result *)

Module FilterAgainFacts.
Import Np Spec NpFacts.

Lemma omap_ext_Forall {A B} (f g : A -> option B) (l : list A) :
  Forall (fun x => f x = g x) l -> omap f l = omap g l.
Proof.
  induction 1 as [|x l Hx _ IH]; [reflexivity|].
  cbn [omap list_omap]. now rewrite Hx, IH.
Qed.

Lemma omap_fmap_compose {A B C} (f : B -> option C) (g : A -> B) (l : list A) :
  omap f (g <$> l) = omap (fun x => f (g x)) l.
Proof.
  induction l as [|x l IH]; [reflexivity|].
  cbn [fmap list_fmap omap list_omap]. now rewrite <- IH.
Qed.

(** Picking every position of a row gives the row. *)
Lemma omap_lookup_all {A} (r : list A) :
  omap (fun j => r !! j) (seq 0 (length r)) = r.
Proof.
  induction r as [|a r IH]; [reflexivity|].
  cbn [length seq]. rewrite <- fmap_S_seq.
  change (omap (fun j => (a :: r) !! j) (0%nat :: (S <$> seq 0 (length r))))
    with (a :: omap (fun j => (a :: r) !! j) (S <$> seq 0 (length r))).
  rewrite omap_fmap_compose.
  change (omap (fun x => (a :: r) !! S x) (seq 0 (length r)))
    with (omap (fun j => r !! j) (seq 0 (length r))).
  now rewrite IH.
Qed.

Lemma filter_all {A} (p : A -> bool) (l : list A) :
  (forall x, In x l -> p x = true) -> List.filter p l = l.
Proof.
  intros Hp. rewrite (filter_ext_in p (fun _ => true) l Hp). apply filter_true.
Qed.

Lemma rectangular_of_Forall {A} (l : list (list A)) n :
  l <> [] -> Forall (fun r => length r = n) l -> rectangular l = true.
Proof.
  destruct l as [|r rs]; [congruence|]. intros _ Hall.
  apply Forall_cons in Hall as [Hr Hrs]. apply Forall_rectangular.
  eapply Forall_impl; [exact Hrs|]. cbn. congruence.
Qed.

Lemma hd_length_of_Forall {A} (l : list (list A)) n :
  l <> [] -> Forall (fun r => length r = n) l -> length (hd [] l) = n.
Proof.
  destruct l as [|r rs]; [congruence|]. intros _ Hall.
  now apply Forall_cons in Hall as [Hr _].
Qed.

Section Again.
Variable raw : list (list Cell).
Hypothesis Hrect : rectangular raw = true.

Abbreviation sel :=
  (fun r : list Cell => omap (fun j => r !! j) (kept_columns raw)).

Lemma sel_length r : r ∈ raw -> length (sel r) = length (kept_columns raw).
Proof.
  intros Hr. apply omap_lookup_length. now apply kept_columns_in_row.
Qed.

Lemma sel_lookup r k j :
  r ∈ raw -> kept_columns raw !! k = Some j -> sel r !! k = r !! j.
Proof.
  intros Hr Hk. apply omap_lookup_lookup; [|assumption].
  now apply kept_columns_in_row.
Qed.

Lemma sel_Forall :
  Forall (fun r' => length r' = length (kept_columns raw)) (sel <$> raw).
Proof.
  apply Forall_fmap, Forall_forall. intros r Hr. cbn. now apply sel_length.
Qed.

Lemma sel_not_nil : sel <$> raw <> [].
Proof.
  intros Hnil. apply fmap_nil_inv in Hnil.
  now apply rectangular_Forall in Hrect as [Hne _].
Qed.

Lemma rectangular_sel : rectangular (sel <$> raw) = true.
Proof. exact (rectangular_of_Forall _ _ sel_not_nil sel_Forall). Qed.

(** Every column of the result holds a true value below the header. *)
Lemma kept_columns_sel :
  kept_columns (sel <$> raw) = seq 0 (length (kept_columns raw)).
Proof.
  unfold kept_columns at 1.
  rewrite (hd_length_of_Forall _ _ sel_not_nil sel_Forall).
  apply filter_all. intros k Hk. apply in_seq in Hk.
  destruct (lookup_lt_is_Some_2 (kept_columns raw) k) as [j Hj]; [lia|].
  rewrite <- fmap_drop, omap_fmap_compose.
  rewrite (omap_ext_Forall _ (fun r => r !! j)).
  - assert (j ∈ kept_columns raw) as Hin
      by (apply list_elem_of_lookup; eauto).
    unfold kept_columns in Hin.
    apply list_elem_of_In, filter_In in Hin as [_ Hany]. exact Hany.
  - apply Forall_drop, Forall_forall. intros r Hr. now apply sel_lookup.
Qed.

Lemma filter_columns_sel :
  discover (sel <$> raw) = DObject ->
  IndicatorDataset.filter_columns (sel <$> raw)
  = Ok (mk_ndarray (length raw) (length (kept_columns raw)) (sel <$> raw)).
Proof.
  intros Hobj. rewrite (filter_columns_object _ rectangular_sel Hobj).
  rewrite kept_columns_sel, length_fmap, length_seq. do 2 f_equal.
  rewrite <- list_fmap_compose. apply list_fmap_ext.
  intros i r Hr. cbn.
  rewrite <- (sel_length r) by (apply list_elem_of_lookup; eauto).
  apply omap_lookup_all.
Qed.

(** The result holds a true value exactly when a column was kept. *)
Lemma any_sel :
  Np.any (mk_ndarray (length raw) (length (kept_columns raw)) (sel <$> raw)) = true
  <-> kept_columns raw <> [].
Proof.
  unfold Np.any. cbn [rows]. rewrite existsb_exists. split.
  - intros (r' & Hr' & Hany) Hnil.
    apply list_elem_of_In, list_elem_of_fmap in Hr' as (r & -> & Hr).
    rewrite Hnil in Hany. discriminate.
  - intros Hne. destruct (kept_columns raw) as [|j rest] eqn:Hkept;
      [contradiction|].
    assert (j ∈ kept_columns raw) as Hj by (rewrite Hkept; left).
    apply kept_columns_spec in Hj as [_ (i & c & Hi & Hc & Ht)].
    unfold entry in Hc. destruct (raw !! i) as [r|] eqn:Hr; [|discriminate].
    cbn in Hc. exists (omap (fun j => r !! j) (j :: rest)). split.
    + apply list_elem_of_In, list_elem_of_fmap. exists r. split; [reflexivity|].
      apply list_elem_of_lookup. eauto.
    + unfold py_any. apply existsb_exists. exists c. split; [|assumption].
      apply list_elem_of_In, list_elem_of_lookup. exists 0%nat.
      cbn [omap list_omap]. now rewrite Hc.
Qed.

End Again.

Lemma kept_columns_nil raw :
  kept_columns raw = []
  <-> forall j, (j < length (hd [] raw))%nat -> column_all_false raw j.
Proof.
  split.
  - intros Hnil j Hj. apply AsNpArrayFacts.column_all_false_iff. intros Hv.
    assert (j ∈ kept_columns raw) as Hin by (apply kept_columns_spec; auto).
    rewrite Hnil in Hin. now apply elem_of_nil in Hin.
  - intros Hall. destruct (kept_columns raw) as [|j rest] eqn:Hkept;
      [reflexivity|].
    assert (j ∈ kept_columns raw) as Hin by (rewrite Hkept; left).
    apply kept_columns_spec in Hin as [Hj Hv].
    now apply (AsNpArrayFacts.column_all_false_iff raw j) in Hv; [|apply Hall].
Qed.

(** An array that holds a [None] or a date is an array of objects. *)
Lemma object_sel_discover raw :
  object_table
    ((fun r : list Cell => omap (fun j => r !! j) (kept_columns (stored raw)))
     <$> stored raw) ->
  discover raw = DObject.
Proof.
  intros (r' & c & Hr' & Hc & Hobj).
  apply list_elem_of_fmap in Hr' as (r & -> & Hr).
  apply list_elem_of_omap in Hc as (j & _ & Hc).
  assert (c ∈ r) as Hcr by (apply list_elem_of_lookup; eauto).
  unfold stored in Hr.
  apply list_elem_of_fmap in Hr as (r0 & -> & Hr0).
  apply list_elem_of_fmap in Hcr as (c0 & -> & Hc0).
  destruct (discover raw) as [|w| | |] eqn:Hdt; [reflexivity|..];
    rewrite <- Hdt; apply object_table_discover; exists r0, c0;
    (split; [assumption|]); (split; [assumption|]);
    destruct c0 as [|s|z|d]; cbn in Hobj;
    destruct Hobj as [Hobj|[d' Hobj]]; try discriminate; eauto.
Qed.

End FilterAgainFacts.

(** X5.  [as_np_array] is idempotent on arrays of objects: when the
    filtered array still holds a [None] or a date, filtering its rows once
    more drops nothing and returns the same array. *)
Theorem as_np_array_idempotent (raw : list (list Cell)) (out : ndarray Cell) :
  IndicatorDataset.filter_columns raw = Ok out ->
  Spec.object_table (rows out) ->
  IndicatorDataset.filter_columns (rows out) = Ok out
  /\ (forall cl kw,
        ClimateDataset.as_list cl kw = rows out ->
        ClimateDataset.as_np_array cl kw = Ok out)
  /\ (forall ind time_series add_metadata kw,
        IndicatorDataset.as_list ind time_series add_metadata kw = rows out ->
        IndicatorDataset.as_np_array ind time_series add_metadata kw = Ok out).
Proof.
  intros Hout Hobj. apply NpFacts.filter_columns_Ok in Hout as [Hrect ->].
  cbn [rows] in *.
  pose proof (FilterAgainFacts.object_sel_discover raw Hobj) as Hdt.
  rewrite Hdt. rewrite (NpFacts.stored_object raw Hdt) in *.
  pose proof (FilterAgainFacts.filter_columns_sel raw Hrect
                (NpFacts.object_table_discover _ Hobj)) as Hagain.
  split; [exact Hagain|].
  split.
  - intros cl kw Heq. unfold ClimateDataset.as_np_array. now rewrite Heq.
  - intros ind ts am kw Heq. unfold IndicatorDataset.as_np_array. now rewrite Heq.
Qed.

Lemma as_np_array_idempotent_witness :
  IndicatorDataset.filter_columns
    [ [CStr "Date"; CStr "Y"];
      [CDate (mkdate 2000 1 1); CNone];
      [CDate (mkdate 2001 1 1); CInt 5] ]
  = Ok (mk_ndarray 3 2
          [ [CStr "Date"; CStr "Y"];
            [CDate (mkdate 2000 1 1); CNone];
            [CDate (mkdate 2001 1 1); CInt 5] ]).
Proof.
  apply (as_np_array_idempotent Sample.zero_column_table
           (mk_ndarray 3 2
              [ [CStr "Date"; CStr "Y"];
                [CDate (mkdate 2000 1 1); CNone];
                [CDate (mkdate 2001 1 1); CInt 5] ])).
  - reflexivity.
  - exists [CDate (mkdate 2000 1 1); CNone], CNone. cbn [rows].
    split; [right; left|]. split; [right; left | now left].
Defined.

(** X6.  On a rectangular raw table that holds a [None] or a date,
    [IndicatorDataset.as_orange_table] returns [None] exactly when every
    entry below the header row is false; the header row plays no part. *)
Theorem as_orange_table_None_iff_body_false `{Env} (self : IndicatorDataset.t)
    (time_series : bool) :
  let raw := IndicatorDataset.as_list self time_series (negb time_series) [] in
  Np.rectangular raw = true ->
  Spec.object_table raw ->
  (IndicatorDataset.as_orange_table self time_series = Ok None
   <-> forall j, (j < length (hd [] raw))%nat -> Spec.column_all_false raw j).
Proof.
  intros raw Hrect Hobj.
  pose proof (NpFacts.filter_columns_object raw Hrect
                (NpFacts.object_table_discover raw Hobj)) as Hout.
  rewrite <- FilterAgainFacts.kept_columns_nil.
  assert (IndicatorDataset.as_orange_table self time_series = Ok None
          <-> Np.any (mk_ndarray (length raw) (length (Spec.kept_columns raw))
                        ((fun r => omap (fun j => r !! j) (Spec.kept_columns raw))
                         <$> raw)) = false) as ->.
  { unfold IndicatorDataset.as_orange_table. destruct time_series.
    - now apply TableFacts.time_series_table_None.
    - now apply TableFacts.country_table_None. }
  pose proof (FilterAgainFacts.any_sel raw) as Hany.
  destruct (Np.any _); destruct (Spec.kept_columns raw); split; intros;
    try reflexivity; try discriminate.
  - exfalso. now apply (proj1 Hany).
  - exfalso. assert (true = true -> False); [|auto].
    intros _. destruct Hany as [_ Hany]. discriminate Hany. discriminate.
Qed.

Lemma as_orange_table_None_iff_body_false_witness :
  IndicatorDataset.as_orange_table (H := Sample.sample_env)
    (Sample.indicator [ [CStr "Date"; CStr "SVN"]; [CNone; CInt 0] ]) true
  = Ok None.
Proof.
  apply (as_orange_table_None_iff_body_false (H := Sample.sample_env)
           (Sample.indicator [ [CStr "Date"; CStr "SVN"]; [CNone; CInt 0] ])
           true).
  - reflexivity.
  - exists [CNone; CInt 0], CNone. split; [right; left|]. split; [left | now left].
  - intros j _ i c Hi Hc. destruct i as [|[|i]]; [lia| |discriminate].
    destruct j as [|[|j]]; cbn in Hc; inversion Hc; reflexivity.
Defined.

(** X7.  [ClimateDataset._country_table] at the edges, on a rectangular raw
    table: with the header row alone it returns [None]; with rows below the
    header that hold a [None] or a date and no true value, every column is
    dropped and the loop's [row[0]] raises [IndexError], where
    [IndicatorDataset] returns [None]. *)
Theorem climate_country_table_edges `{Env} (self : ClimateDataset.t)
    (kw : Py.kwargs) :
  let raw := ClimateDataset.as_list self kw in
  Np.rectangular raw = true ->
  (length raw = 1%nat -> ClimateDataset._country_table self kw = Ok None)
  /\ ((2 <= length raw)%nat ->
      Spec.object_table raw ->
      (forall j, (j < length (hd [] raw))%nat -> Spec.column_all_false raw j) ->
      ClimateDataset._country_table self kw = Raise IndexError).
Proof.
  intros raw Hrect.
  unfold ClimateDataset._country_table, ClimateDataset.as_np_array.
  fold raw. split.
  - intros Hlen. rewrite (NpFacts.filter_columns_rectangular raw Hrect).
    cbn [mbind result_bind shape0]. now rewrite Hlen.
  - intros Hlen Hobj Hfalse.
    rewrite (NpFacts.filter_columns_object raw Hrect
               (NpFacts.object_table_discover raw Hobj)).
    cbn [mbind result_bind shape0].
    apply FilterAgainFacts.kept_columns_nil in Hfalse.
    rewrite Hfalse. destruct (Nat.ltb_spec (length raw) 2) as [|_]; [lia|].
    cbn [Np.cols_upto Np.cols_from Np.rows_from rows omap list_omap].
    destruct raw as [|header [|row body]]; cbn [length] in Hlen; try lia.
    reflexivity.
Qed.

Lemma climate_country_table_edges_witness :
  ClimateDataset._country_table (H := Sample.sample_env)
    (Sample.climate [[CStr "country"; CStr "1920"]]) [] = Ok None
  /\ ClimateDataset._country_table (H := Sample.sample_env)
       (Sample.climate [[CStr "country"; CStr "1920"]; [CStr ""; CNone]]) []
     = Raise IndexError.
Proof.
  split.
  - apply (climate_country_table_edges (H := Sample.sample_env)
             (Sample.climate [[CStr "country"; CStr "1920"]]) []);
      reflexivity.
  - apply (climate_country_table_edges (H := Sample.sample_env)
             (Sample.climate [[CStr "country"; CStr "1920"]; [CStr ""; CNone]])
             []);
      [reflexivity|cbn; lia
      |exists [CStr ""; CNone], CNone;
       split; [right; left|]; split; [right; left | now left]|].
    intros j Hj i c Hi Hc. destruct i as [|[|i]]; [lia| |discriminate].
    destruct j as [|[|j]]; cbn in Hc; inversion Hc; reflexivity.
Defined.

(** ** The older module *)

(** X8.  In the older module [_get_iso_date] never converts a quarter or a
    month: a string with one "Q" separator, or with one "M" separator and no
    "Q", raises [AttributeError] whatever stands around the separator; on
    every string without "Q" and "M" the two modules return the same. *)
Theorem wbd_get_iso_date_raises_on_quarters (today : date) :
  (forall a b,
     PyStr.contains "Q" a = false -> PyStr.contains "Q" b = false ->
     Wbd._get_iso_date today (a +:+ "Q" +:+ b) = Raise AttributeError)
  /\ (forall a b,
        PyStr.contains "Q" a = false -> PyStr.contains "Q" b = false ->
        PyStr.contains "M" a = false -> PyStr.contains "M" b = false ->
        Wbd._get_iso_date today (a +:+ "M" +:+ b) = Raise AttributeError)
  /\ (forall s,
        PyStr.contains "Q" s = false -> PyStr.contains "M" s = false ->
        Wbd._get_iso_date today s = IndicatorDataset._get_iso_date today s).
Proof.
  split; [|split].
  - intros a b Ha Hb. unfold Wbd._get_iso_date.
    change (a +:+ "Q" +:+ b) with (a +:+ String "Q" b).
    now rewrite GetIsoDateFacts.contains_sep, PyStrFacts.split_two.
  - intros a b HQa HQb Ha Hb. unfold Wbd._get_iso_date.
    change (a +:+ "M" +:+ b) with (a +:+ String "M" b).
    assert (PyStr.contains "Q" (a +:+ String "M" b) = false) as ->.
    { rewrite PyStrFacts.contains_app. cbn [PyStr.contains].
      now rewrite HQa, HQb. }
    now rewrite GetIsoDateFacts.contains_sep, PyStrFacts.split_two.
  - intros s HQ HM. unfold Wbd._get_iso_date, IndicatorDataset._get_iso_date.
    now rewrite HQ, HM.
Qed.

Lemma wbd_get_iso_date_raises_on_quarters_witness :
  Wbd._get_iso_date (mkdate 2016 5 4) "2002Q3" = Raise AttributeError
  /\ Wbd._get_iso_date (mkdate 2016 5 4) "1999M7" = Raise AttributeError
  /\ Wbd._get_iso_date (mkdate 2016 5 4) "2005" = Ok (CStr "2005-01-01").
Proof.
  destruct (wbd_get_iso_date_raises_on_quarters (mkdate 2016 5 4))
    as (HQ & HM & Hsame).
  split; [apply (HQ "2002"%string "3"%string); reflexivity|].
  split; [apply (HM "1999"%string "7"%string); reflexivity|].
  rewrite (Hsame "2005"%string); reflexivity.
Defined.

(** X9.  In the older module [_country_table] cannot fail on a rectangular
    raw table: it returns [None] when the filtered array holds no true
    value, and otherwise a table whose metadata are the first (at most 7)
    columns as they are, under string variables named after their header
    entries, and whose data are the remaining columns. *)
Theorem wbd_country_table_total `{Env} (self : IndicatorDataset.t) :
  Np.rectangular (IndicatorDataset.as_list self false true []) = true ->
  exists data header,
    IndicatorDataset.as_np_array self false true [] = Ok data
    /\ rows data !! 0%nat = Some header
    /\ (Np.any data = false -> Wbd._country_table self = Ok None)
    /\ (Np.any data = true ->
        Wbd._country_table self
        = Ok (Some (Orange.mk_Table
                      (Orange.mk_Domain
                         (Orange.ContinuousVariable <$> drop 7 header)
                         (Orange.StringVariable <$> take 7 header))
                      ((fun r => Orange.OCell <$> drop 7 r) <$> drop 1 (rows data))
                      ((fun r => Orange.OCell <$> take 7 r) <$> drop 1 (rows data))))).
Proof.
  intros Hrect.
  destruct (AsNpArrayFacts.filter_columns_characterised _ Hrect)
    as (data & Hout & _ & _ & (_ & _ & Hlen & _)).
  pose proof (NpFacts.rectangular_Forall _ Hrect) as [Hne _].
  rewrite NpFacts.stored_length in Hlen.
  destruct (rows data !! 0%nat) as [header|] eqn:Hheader.
  2:{ apply lookup_ge_None in Hheader. rewrite Hlen in Hheader.
      destruct (IndicatorDataset.as_list self false true []);
        [congruence | cbn in Hheader; lia]. }
  exists data, header.
  split; [exact Hout|]. split; [exact Hheader|].
  unfold Wbd._country_table, IndicatorDataset.as_np_array.
  rewrite Hout. cbn [mbind result_bind].
  split; intros ->; cbn [negb]; [reflexivity|].
  unfold Np.row. rewrite Hheader.
  cbn [rows mbind result_bind Np.cols_upto Np.cols_from Np.rows_from].
  do 3 f_equal; rewrite <- list_fmap_compose; reflexivity.
Qed.

Lemma wbd_country_table_total_witness :
  exists table,
    Wbd._country_table (H := Sample.sample_env)
      (Sample.indicator Sample.aggregates_table) = Ok (Some table)
    /\ Orange.metas table
       = [ [Orange.OCell (CStr "World"); Orange.OCell (CInt 7)];
           [Orange.OCell (CStr "Arab World"); Orange.OCell (CInt 3)] ].
Proof.
  destruct (wbd_country_table_total (H := Sample.sample_env)
              (Sample.indicator Sample.aggregates_table))
    as (data & header & Hdata & Hheader & _ & Htable).
  - reflexivity.
  - assert (IndicatorDataset.as_np_array
              (Sample.indicator Sample.aggregates_table) false true []
            = Ok (mk_ndarray 3 2
                    [ [CStr "Country"; CStr "SP.POP.TOTL"];
                      [CStr "World"; CInt 7];
                      [CStr "Arab World"; CInt 3] ])) as Hd by reflexivity.
    rewrite Hd in Hdata. inversion Hdata; subst data.
    eexists. split; [apply Htable; reflexivity|]. reflexivity.
Defined.

(** ** The time-series builders *)

Module TimeSeriesFacts.
Import Py Orange Spec ResultFacts.

Section WithEnv.
Context `{Env}.

(** A row of timestamps is a float or [None], alone. *)
Lemma timestamp_row_Ok (date_ : Cell) (row : list Obj) :
  IndicatorDataset.timestamp_row date_ = Ok row ->
  (truthy date_ = false /\ row = [OCell CNone])
  \/ (exists d t, date_ = CDate d /\ mktime d = Ok t /\ row = [OFloat t]).
Proof.
  unfold IndicatorDataset.timestamp_row. destruct (truthy date_) eqn:Ht.
  - destruct date_ as [|s|z|d]; try discriminate.
    destruct (mktime d) as [t|e] eqn:Hm; cbn; [|discriminate].
    inversion 1. right. eauto.
  - inversion 1. left. auto.
Qed.

(** Neither a float nor [None] is a key of the alpha-3 map: the loop over
    the timestamps changes nothing. *)
Lemma normalize_timestamp_row (date_ : Cell) (row : list Obj) :
  IndicatorDataset.timestamp_row date_ = Ok row ->
  ClimateDataset.normalize_row row = Ok row.
Proof.
  intros Hrow.
  destruct (timestamp_row_Ok _ _ Hrow) as [[_ ->]|(d & t & _ & _ & ->)];
    reflexivity.
Qed.

Lemma normalize_timestamps (dates : list Cell) (meta : list (list Obj)) :
  mapM IndicatorDataset.timestamp_row dates = Ok meta ->
  mapM ClimateDataset.normalize_row meta = Ok meta.
Proof.
  intros Hmeta. apply mapM_Ok in Hmeta.
  induction Hmeta as [|date_ row dates meta Hrow _ IH]; [reflexivity|].
  cbn [mapM]. rewrite (normalize_timestamp_row _ _ Hrow). cbn.
  now rewrite IH.
Qed.

(** A keyword the method passes itself cannot be passed to it. *)
Lemma add_kwarg_twice name v kw v' :
  (name, v') ∈ kw -> add_kwarg name v kw = Raise TypeError.
Proof.
  intros Hin. unfold add_kwarg.
  assert (existsb (fun '(n, _) => String.eqb n name) kw = true) as ->;
    [|reflexivity].
  apply existsb_exists. exists (name, v'). split; [now apply list_elem_of_In|].
  apply String.eqb_refl.
Qed.

Lemma add_kwarg_raises name v kw :
  raises_only (fun e => e = TypeError) (add_kwarg name v kw).
Proof.
  intros e. unfold add_kwarg. destruct (existsb _ kw); now inversion 1.
Qed.

Lemma add_kwarg_Ok name v kw kw' :
  add_kwarg name v kw = Ok kw' -> kw' = (name, v) :: kw.
Proof. unfold add_kwarg. destruct (existsb _ kw); now inversion 1. Qed.

End WithEnv.

End TimeSeriesFacts.

(** X10.  [ClimateDataset._time_series_table] passes [columns] and
    [use_dates] itself: called with either keyword it raises [TypeError]
    before anything else happens.  And when it returns a table, the
    metadata are the timestamps of the first column as computed: the loop
    that looks them up in the alpha-3 country map changes none of them. *)
Theorem climate_time_series_table_keywords `{Env} (self : ClimateDataset.t)
    (kw : Py.kwargs) :
  (forall name v,
     (name, v) ∈ kw -> name = "columns"%string \/ name = "use_dates"%string ->
     ClimateDataset._time_series_table self kw = Raise TypeError)
  /\ (forall table,
        ClimateDataset._time_series_table self kw = Ok (Some table) ->
        exists data dates,
          ClimateDataset.as_np_array self
            (("columns"%string, Py.KStrs ["country"%string; "type"%string])
             :: ("use_dates"%string, Py.KBool true) :: kw) = Ok data
          /\ Np.column 0 (Np.rows_from 1 data) = Ok dates
          /\ mapM IndicatorDataset.timestamp_row dates = Ok (Orange.metas table)).
Proof.
  split.
  - intros name v Hin Hname. unfold ClimateDataset._time_series_table.
    destruct (Py.add_kwarg "use_dates" (Py.KBool true) kw) as [kw1|e] eqn:H1;
      cbn [mbind result_bind].
    + destruct Hname as [-> | ->].
      * apply TimeSeriesFacts.add_kwarg_Ok in H1 as ->.
        rewrite (TimeSeriesFacts.add_kwarg_twice "columns" _ _ v); [reflexivity|].
        now right.
      * now rewrite (TimeSeriesFacts.add_kwarg_twice "use_dates" _ _ v Hin) in H1.
    + now rewrite (TimeSeriesFacts.add_kwarg_raises _ _ _ _ H1).
  - intros table Hrun. unfold ClimateDataset._time_series_table in Hrun.
    apply ResultFacts.bind_Ok in Hrun as (kw1 & H1 & Hrun).
    apply ResultFacts.bind_Ok in Hrun as (kw2 & H2 & Hrun).
    apply ResultFacts.bind_Ok in Hrun as (data & Hdata & Hrun).
    destruct (shape0 data <? 2)%nat; [discriminate|]. cbv zeta in Hrun.
    apply ResultFacts.bind_Ok in Hrun as (dates & Hdates & Hrun).
    apply ResultFacts.bind_Ok in Hrun as (meta & Hmeta & Hrun).
    apply ResultFacts.bind_Ok in Hrun as (meta' & Hmeta' & Hrun).
    apply ResultFacts.bind_Ok in Hrun as (header & Hheader & Hrun).
    inversion Hrun; subst table. cbn [Orange.metas].
    rewrite (TimeSeriesFacts.normalize_timestamps _ _ Hmeta) in Hmeta'.
    inversion Hmeta'; subst meta'.
    apply TimeSeriesFacts.add_kwarg_Ok in H1 as ->.
    apply TimeSeriesFacts.add_kwarg_Ok in H2 as ->.
    exists data, dates. auto.
Qed.

Lemma climate_time_series_table_keywords_witness :
  ClimateDataset._time_series_table (H := Sample.sample_env)
    (Sample.climate Sample.zero_column_table)
    [("use_dates"%string, Py.KBool false)]
  = Raise TypeError
  /\ exists table dates,
       ClimateDataset._time_series_table (H := Sample.sample_env)
         (Sample.climate Sample.zero_column_table) [] = Ok (Some table)
       /\ mapM (IndicatorDataset.timestamp_row (H := Sample.sample_env)) dates
          = Ok (Orange.metas table).
Proof.
  split.
  - apply (proj1 (climate_time_series_table_keywords (H := Sample.sample_env)
                    (Sample.climate Sample.zero_column_table)
                    [("use_dates"%string, Py.KBool false)])
             "use_dates"%string (Py.KBool false)).
    + left.
    + now right.
  - assert (exists table,
              ClimateDataset._time_series_table (H := Sample.sample_env)
                (Sample.climate Sample.zero_column_table) [] = Ok (Some table))
      as [table Hrun] by (eexists; reflexivity).
    destruct (proj2 (climate_time_series_table_keywords (H := Sample.sample_env)
                       (Sample.climate Sample.zero_column_table) [])
                table Hrun) as (data & dates & _ & _ & Hmeta).
    exists table, dates. split; [exact Hrun | exact Hmeta].
Defined.

Module TimestampFacts.
Import Py Orange Spec ResultFacts.

Lemma omap_head_lookup {A} (l : list (list A)) i :
  Forall (fun r => 1 <= length r)%nat l ->
  omap (fun r => r !! 0%nat) l !! i = l !! i ≫= fun r => r !! 0%nat.
Proof.
  intros Hall. revert i. induction Hall as [|r l Hr _ IH]; intros i;
    [reflexivity|].
  destruct r as [|a r]; [cbn in Hr; lia|].
  cbn [omap list_omap lookup list_lookup]. destruct i as [|i]; [reflexivity|].
  apply IH.
Qed.

Lemma omap_head_length {A} (l : list (list A)) :
  Forall (fun r => 1 <= length r)%nat l ->
  length (omap (fun r => r !! 0%nat) l) = length l.
Proof.
  induction 1 as [|r l Hr _ IH]; [reflexivity|].
  destruct r as [|a r]; [cbn in Hr; lia|].
  cbn [omap list_omap lookup list_lookup length]. now rewrite IH.
Qed.

Lemma omap_head_elem {A} (l : list (list A)) c :
  c ∈ omap (fun r => r !! 0%nat) l -> exists r, r ∈ l /\ r !! 0%nat = Some c.
Proof. intros Hc. apply list_elem_of_omap in Hc as (r & Hr & Hc). eauto. Qed.

(** An array with a true value has a row and a column. *)
Lemma any_shape (data : ndarray Cell) :
  well_formed data -> Np.any data = true ->
  (1 <= shape1 data)%nat /\ exists header body, rows data = header :: body.
Proof.
  intros [_ Hrows] Hany. unfold Np.any in Hany.
  apply existsb_exists in Hany as (r & Hr & Hr').
  apply existsb_exists in Hr' as (c & Hc & _). split.
  - rewrite Forall_forall in Hrows.
    rewrite <- (Hrows r) by now apply list_elem_of_In.
    destruct r; [destruct Hc | cbn; lia].
  - destruct (rows data) as [|header body]; [destruct Hr | eauto].
Qed.

End TimestampFacts.

(** X11.  [IndicatorDataset._time_series_table] on an array with a true
    value, whose first column holds below the header nothing but dates that
    [time.mktime] converts and false entries: it returns a table with one
    row per row below the header.  Row [i] holds the entries of array row
    [i + 1] after the first as data and, as its only metadata, the timestamp
    of the first entry, or [None] where that entry is false.  The variables
    are named by the header after its first entry; the metadata variable is
    named "Date" whatever the header says. *)
Theorem time_series_table_rows `{Env} (self : IndicatorDataset.t)
    (data : ndarray Cell) :
  IndicatorDataset.as_np_array self true false [] = Ok data ->
  Np.any data = true ->
  (forall row c,
     row ∈ drop 1 (rows data) -> row !! 0%nat = Some c -> truthy c = true ->
     exists d t, c = CDate d /\ mktime d = Ok t) ->
  exists table header,
    IndicatorDataset._time_series_table self = Ok (Some table)
    /\ rows data !! 0%nat = Some header
    /\ Orange.domain table
       = Orange.mk_Domain (Orange.ContinuousVariable <$> drop 1 header)
           [Orange.TimeVariable (CStr "Date")]
    /\ length (Orange.X table) = (shape0 data - 1)%nat
    /\ length (Orange.metas table) = (shape0 data - 1)%nat
    /\ forall i row,
         rows data !! S i = Some row ->
         Orange.X table !! i = Some (Orange.OCell <$> drop 1 row)
         /\ exists c,
              row !! 0%nat = Some c
              /\ ((truthy c = false
                   /\ Orange.metas table !! i = Some [Orange.OCell CNone])
                  \/ (exists d t,
                        c = CDate d /\ mktime d = Ok t
                        /\ Orange.metas table !! i = Some [Orange.OFloat t])).
Proof.
  intros Hdata Hany Hdates.
  assert (Spec.well_formed data) as Hwf.
  { unfold IndicatorDataset.as_np_array in Hdata.
    now apply ClimateFacts.filter_columns_well_formed in Hdata. }
  destruct (TimestampFacts.any_shape data Hwf Hany)
    as (Hcols & header & body & Hrs).
  destruct Hwf as [Hlen Hrows]. rewrite Hrs in Hlen, Hrows, Hdates.
  cbn [drop] in Hdates. apply Forall_cons in Hrows as [_ Hbody].
  assert (Forall (fun r : list Cell => 1 <= length r)%nat body) as Hhead.
  { eapply Forall_impl; [exact Hbody|]. cbn. intros r ->. exact Hcols. }
  set (stamp := fun c : Cell =>
         match IndicatorDataset.timestamp_row c with
         | Ok r => r
         | Raise _ => []
         end).
  assert (forall r c, r ∈ body -> r !! 0%nat = Some c ->
            IndicatorDataset.timestamp_row c = Ok (stamp c)
            /\ ((truthy c = false /\ stamp c = [Orange.OCell CNone])
                \/ (exists d t, c = CDate d /\ mktime d = Ok t
                                /\ stamp c = [Orange.OFloat t]))) as Hstamp.
  { intros r c Hr Hc. unfold stamp, IndicatorDataset.timestamp_row.
    destruct (truthy c) eqn:Ht.
    - destruct (Hdates r c Hr Hc Ht) as (d & t & -> & Hm).
      rewrite Hm. cbn. split; [reflexivity|]. right. eauto.
    - split; [reflexivity|]. left. auto. }
  exists (Orange.mk_Table
            (Orange.mk_Domain (Orange.ContinuousVariable <$> drop 1 header)
               [Orange.TimeVariable (CStr "Date")])
            ((fun r => Orange.OCell <$> r) <$> (drop 1 <$> body))
            (stamp <$> omap (fun r => r !! 0%nat) body)), header.
  cbn [Orange.domain Orange.X Orange.metas].
  split; [|split; [|split; [|split; [|split]]]].
  - unfold IndicatorDataset._time_series_table. rewrite Hdata.
    cbn [mbind result_bind]. rewrite Hany. cbn [negb].
    unfold Np.column, Np.row, Np.rows_from, Np.cols_from.
    cbn [shape0 shape1 rows]. rewrite Hrs. cbn [drop lookup list_lookup].
    destruct (Nat.ltb_spec 0 (shape1 data)) as [_|]; [|lia].
    cbn [mbind result_bind].
    rewrite (ResultFacts.mapM_total _ stamp); [reflexivity|].
    apply Forall_forall. intros c Hc.
    apply TimestampFacts.omap_head_elem in Hc as (r & Hr & Hc).
    now apply (Hstamp r c).
  - now rewrite Hrs.
  - reflexivity.
  - rewrite !length_fmap. cbn [length] in Hlen. lia.
  - rewrite length_fmap, TimestampFacts.omap_head_length by assumption.
    cbn [length] in Hlen. lia.
  - intros i row Hi. rewrite Hrs in Hi. cbn [lookup list_lookup] in Hi.
    change (body !! i = Some row) in Hi. split.
    + now rewrite !list_lookup_fmap, Hi.
    + assert (row ∈ body) as Hrow by (apply list_elem_of_lookup; eauto).
      rewrite Forall_forall in Hhead. pose proof (Hhead row Hrow) as Hl.
      destruct row as [|c row]; [cbn in Hl; lia|]. exists c.
      split; [reflexivity|].
      rewrite list_lookup_fmap, TimestampFacts.omap_head_lookup
        by (now apply Forall_forall).
      rewrite Hi.
      cbn [mbind option_bind lookup list_lookup fmap option_fmap option_map].
      destruct (Hstamp (c :: row) c Hrow eq_refl)
        as [_ [[Ht ->]|(d & t & -> & Hm & ->)]]; [left; auto | right; eauto].
Qed.

Lemma time_series_table_rows_witness :
  exists table,
    IndicatorDataset._time_series_table (H := Sample.sample_env)
      (Sample.indicator Sample.zero_column_table) = Ok (Some table)
    /\ length (Orange.metas table) = 2%nat.
Proof.
  destruct (time_series_table_rows (H := Sample.sample_env)
              (Sample.indicator Sample.zero_column_table)
              (mk_ndarray 3 2
                 [ [CStr "Date"; CStr "Y"];
                   [CDate (mkdate 2000 1 1); CNone];
                   [CDate (mkdate 2001 1 1); CInt 5] ]))
    as (table & header & Hrun & _ & _ & _ & Hmetas & _).
  - reflexivity.
  - reflexivity.
  - intros row c Hrow Hc _. cbn [rows drop] in Hrow.
    apply elem_of_cons in Hrow as [-> | Hrow];
      [|apply elem_of_cons in Hrow as [-> | Hrow];
        [|now apply elem_of_nil in Hrow]];
      inversion Hc; subst c; eexists; eexists; split; reflexivity.
  - exists table. split; [exact Hrun | exact Hmetas].
Defined.
